(** * Trivia API: a shallow embedding of [backend/flaskr/__init__.py]

    The Flask application is a handful of request handlers over two tables
    (questions, categories).  The development below embeds

    - the Python values the handlers manipulate (parsed JSON bodies, the
      dictionaries handed to [jsonify]), with the builtins the handlers call
      on them ([dict.get], truthiness, [int], [set], [str.format], slicing);
    - the SQL [ILIKE] operator used by the search path;
    - the rows and the session operations of [models.py];
    - exceptions ([abort], the bare [except:] clauses) as an error monad, and
      Flask's dispatch of exceptions to the registered error handlers;
    - the handlers themselves, in the order of the source file.

    Strings are byte strings; case folding and character classes are the
    ASCII ones. *)

From Stdlib Require Import ZArith List String Ascii Bool Lia DecimalString.
From Stdlib Require DecimalZ.
Import ListNotations.

Local Set Warnings "-register-all".
Local Open Scope string_scope.
Local Open Scope list_scope.
Local Open Scope Z_scope.

(* ================================================================= *)
(** ** Python values *)

Module Py.

(** Dictionary keys that occur in the program: the string keys of JSON
    objects and of the response envelopes, and the integer keys of the
    category mapping. *)
Inductive key : Type :=
| KInt (z : Z)
| KStr (s : string).

(** The values a parsed JSON document is made of ([request.get_json()]),
    which are also the values handed to [jsonify].  Numbers are the
    integers. *)
Inductive value : Type :=
| VNone
| VBool (b : bool)
| VInt (z : Z)
| VStr (s : string)
| VList (l : list value)
| VDict (d : list (key * value)).

Definition dict : Type := list (key * value).

Definition key_eqb (a b : key) : bool :=
  match a, b with
  | KInt x, KInt y => Z.eqb x y
  | KStr x, KStr y => String.eqb x y
  | _, _ => false
  end.

Fixpoint lookup (d : dict) (k : key) : option value :=
  match d with
  | [] => None
  | (k', v) :: d' => if key_eqb k' k then Some v else lookup d' k
  end.

(** [d.get(k, default)] *)
Definition get (d : dict) (k : string) (default : value) : value :=
  match lookup d (KStr k) with
  | Some v => v
  | None => default
  end.

(** [d[k] = v]: an existing key keeps its position. *)
Fixpoint setitem (d : dict) (k : key) (v : value) : dict :=
  match d with
  | [] => [(k, v)]
  | (k', v') :: d' =>
      if key_eqb k' k then (k', v) :: d' else (k', v') :: setitem d' k v
  end.

(** [v is None] *)
Definition is_None (v : value) : bool :=
  match v with
  | VNone => true
  | _ => false
  end.

(** Truth value testing, as in [if search:]. *)
Definition truthy (v : value) : bool :=
  match v with
  | VNone => false
  | VBool b => b
  | VInt z => negb (Z.eqb z 0)
  | VStr s => negb (String.eqb s "")
  | VList l => match l with [] => false | _ => true end
  | VDict d => match d with [] => false | _ => true end
  end.

(** *** Exceptions *)

Inductive exn : Type :=
| HTTPException (code : Z)
| AttributeError
| KeyError
| TypeError
| ValueError
| MultipleResultsFound
| DataError.

Inductive result (A : Type) : Type :=
| Ok (a : A)
| Raise (e : exn).
Arguments Ok {A} a.
Arguments Raise {A} e.

Definition bind {A B : Type} (m : result A) (k : A -> result B) : result B :=
  match m with
  | Ok a => k a
  | Raise e => Raise e
  end.

(** [try: m except: h] with a bare [except], which catches every
    exception, the [HTTPException] raised by [abort] included. *)
Definition try_except {A : Type} (m : result A) (h : result A) : result A :=
  match m with
  | Ok a => Ok a
  | Raise _ => h
  end.

(** *** [int(x)] *)

Definition is_space (c : ascii) : bool :=
  let n := Z.of_nat (nat_of_ascii c) in
  ((9 <=? n) && (n <=? 13)) || ((28 <=? n) && (n <=? 32)).

Fixpoint lstrip (l : list ascii) : list ascii :=
  match l with
  | [] => []
  | c :: l' => if is_space c then lstrip l' else l
  end.

Definition strip (l : list ascii) : list ascii :=
  rev (lstrip (rev (lstrip l))).

Definition digit_of (c : ascii) : option Z :=
  let n := Z.of_nat (nat_of_ascii c) in
  if (48 <=? n) && (n <=? 57) then Some (n - 48) else None.

(** Decimal digits, with single underscores allowed between two digits. *)
Fixpoint digits (acc : Z) (after_digit : bool) (l : list ascii) : option Z :=
  match l with
  | [] => if after_digit then Some acc else None
  | c :: l' =>
      match digit_of c with
      | Some d => digits (10 * acc + d) true l'
      | None =>
          if Ascii.eqb c "_"%char && after_digit
          then digits acc false l'
          else None
      end
  end.

(** [int(s)] for a string: surrounding white space, an optional sign,
    decimal digits. *)
Definition parse_int (s : string) : option Z :=
  match strip (list_ascii_of_string s) with
  | c :: r =>
      if Ascii.eqb c "+"%char then digits 0 false r
      else if Ascii.eqb c "-"%char then option_map Z.opp (digits 0 false r)
      else digits 0 false (c :: r)
  | [] => None
  end.

Definition int (v : value) : result Z :=
  match v with
  | VInt z => Ok z
  | VBool b => Ok (Z.b2z b)
  | VStr s =>
      match parse_int s with
      | Some z => Ok z
      | None => Raise ValueError
      end
  | VNone | VList _ | VDict _ => Raise TypeError
  end.

(** *** [v[k]] *)

Definition getitem (v : value) (k : string) : result value :=
  match v with
  | VDict d =>
      match lookup d (KStr k) with
      | Some x => Ok x
      | None => Raise KeyError
      end
  | _ => Raise TypeError
  end.

(** *** [set(v)] and membership of an integer *)

Definition hashable (v : value) : bool :=
  match v with
  | VList _ | VDict _ => false
  | _ => true
  end.

Definition value_of_key (k : key) : value :=
  match k with
  | KInt z => VInt z
  | KStr s => VStr s
  end.

(** The set is kept as the list of its elements; only membership is ever
    asked of it. *)
Definition set (v : value) : result (list value) :=
  match v with
  | VList l => if forallb hashable l then Ok l else Raise TypeError
  | VStr s =>
      Ok (map (fun c => VStr (String c EmptyString)) (list_ascii_of_string s))
  | VDict d => Ok (map (fun kv => value_of_key (fst kv)) d)
  | VNone | VBool _ | VInt _ => Raise TypeError
  end.

(** [v == n] for an integer [n]: Python's booleans are the integers 0
    and 1. *)
Definition eq_int (v : value) (n : Z) : bool :=
  match v with
  | VInt z => Z.eqb z n
  | VBool b => Z.eqb (Z.b2z b) n
  | _ => false
  end.

(** [n in s] *)
Definition contains_int (s : list value) (n : Z) : bool :=
  existsb (fun v => eq_int v n) s.

(** *** [l[start:stop]] *)

Definition adjust_index (len i : Z) : Z :=
  if i <? 0 then Z.max (i + len) 0 else Z.min i len.

Definition slice {A : Type} (l : list A) (start stop : Z) : list A :=
  let len := Z.of_nat (List.length l) in
  let lo := adjust_index len start in
  let hi := adjust_index len stop in
  firstn (Z.to_nat (hi - lo)) (skipn (Z.to_nat lo) l).

(** *** [str(v)], as used by ['%{}%'.format(search)] *)

Definition string_of_Z (z : Z) : string :=
  NilZero.string_of_int (Z.to_int z).

Definition dquote : ascii := ascii_of_nat 34.
Definition squote : ascii := ascii_of_nat 39.
Definition backslash : ascii := ascii_of_nat 92.

Definition hex_digit (n : nat) : ascii :=
  if Nat.ltb n 10 then ascii_of_nat (48 + n) else ascii_of_nat (87 + n).

Definition repr_char (quote c : ascii) : list ascii :=
  let n := nat_of_ascii c in
  if Ascii.eqb c backslash || Ascii.eqb c quote then [backslash; c]
  else if Nat.eqb n 9 then [backslash; "t"%char]
  else if Nat.eqb n 10 then [backslash; "n"%char]
  else if Nat.eqb n 13 then [backslash; "r"%char]
  else if Nat.ltb n 32 || Nat.eqb n 127
       then [backslash; "x"%char; hex_digit (Nat.div n 16); hex_digit (Nat.modulo n 16)]
       else [c].

Definition repr_str (s : string) : string :=
  let l := list_ascii_of_string s in
  let quote :=
    if existsb (Ascii.eqb squote) l && negb (existsb (Ascii.eqb dquote) l)
    then dquote else squote in
  string_of_list_ascii (quote :: flat_map (repr_char quote) l ++ [quote]).

Definition repr_key (k : key) : string :=
  match k with
  | KInt z => string_of_Z z
  | KStr s => repr_str s
  end.

Fixpoint join (sep : string) (l : list string) : string :=
  match l with
  | [] => ""
  | [x] => x
  | x :: l' => (x ++ sep ++ join sep l')%string
  end.

Fixpoint repr (v : value) : string :=
  match v with
  | VNone => "None"
  | VBool true => "True"
  | VBool false => "False"
  | VInt z => string_of_Z z
  | VStr s => repr_str s
  | VList l => ("[" ++ join ", " (map repr l) ++ "]")%string
  | VDict d =>
      ("{" ++ join ", "
                (map (fun kv => (repr_key (fst kv) ++ ": " ++ repr (snd kv))%string) d)
           ++ "}")%string
  end.

Definition str (v : value) : string :=
  match v with
  | VStr s => s
  | _ => repr v
  end.

End Py.

Import Py.

Notation "x <- m ;; k" := (Py.bind m (fun x => k))
  (at level 61, m at next level, right associativity).

(* ================================================================= *)
(** ** The SQL pattern operator behind [Question.question.ilike(...)] *)

Module Sql.

(** A [LIKE] pattern is a sequence of wildcards and literal characters:
    [%] stands for any run of characters, [_] for exactly one, and a
    backslash makes the character after it literal. *)
Inductive like_token : Type :=
| AnySeq
| AnyChar
| Lit (c : ascii).

(** A pattern that ends in an unfinished escape is rejected. *)
Fixpoint tokens (p : list ascii) : option (list like_token) :=
  match p with
  | [] => Some []
  | c :: p' =>
      if Ascii.eqb c backslash then
        match p' with
        | [] => None
        | e :: p'' => option_map (cons (Lit e)) (tokens p'')
        end
      else if Ascii.eqb c "%"%char then option_map (cons AnySeq) (tokens p')
      else if Ascii.eqb c "_"%char then option_map (cons AnyChar) (tokens p')
      else option_map (cons (Lit c)) (tokens p')
  end.

Definition lower (c : ascii) : ascii :=
  let n := nat_of_ascii c in
  if Nat.leb 65 n && Nat.leb n 90 then ascii_of_nat (n + 32) else c.

(** Character comparison of [ILIKE]: equal up to case. *)
Definition ci_eqb (a b : ascii) : bool := Ascii.eqb (lower a) (lower b).

(** The whole text has to match the whole pattern. *)
Fixpoint matches (p : list like_token) (t : list ascii) {struct p} : bool :=
  match p with
  | [] => match t with [] => true | _ :: _ => false end
  | Lit c :: p' =>
      match t with
      | [] => false
      | x :: t' => ci_eqb c x && matches p' t'
      end
  | AnyChar :: p' =>
      match t with
      | [] => false
      | _ :: t' => matches p' t'
      end
  | AnySeq :: p' =>
      (fix skip (t : list ascii) : bool :=
         matches p' t
         || match t with
            | [] => false
            | _ :: t' => skip t'
            end) t
  end.

(** [text ILIKE pattern] *)
Definition ilike (text pattern : string) : result bool :=
  match tokens (list_ascii_of_string pattern) with
  | Some p => Ok (matches p (list_ascii_of_string text))
  | None => Raise DataError
  end.

End Sql.

(* ================================================================= *)
(** ** The rows and the session ([models.py]) *)

Module Question.

(** Modelled from the spec: the [Question] model class of [models.py],
    which is not among the sources.  A question has an identifier, a
    question text, an answer text, a category identifier and a difficulty. *)
Record t : Type := Build
  { id : Z;
    question : string;
    answer : string;
    category : Z;
    difficulty : Z }.

(** Modelled from the spec: [Question.format] of [models.py], the
    formatted item the endpoints return, one entry per column. *)
Definition format (q : t) : value :=
  VDict [ (KStr "id", VInt (id q));
          (KStr "question", VStr (question q));
          (KStr "answer", VStr (answer q));
          (KStr "category", VInt (category q));
          (KStr "difficulty", VInt (difficulty q)) ].

End Question.

Module Category.

(** Modelled from the spec: the [Category] model class of [models.py]: an
    identifier and a type (label). *)
Record t : Type := Build
  { id : Z;
    type : string }.

End Category.

(** The persistent state: both tables, rows in storage order, and the
    sequence that issues question identifiers. *)
Record Db : Type := MkDb
  { questions_table : list Question.t;
    categories_table : list Category.t;
    questions_id_seq : Z }.

(** [Question.query.all()] and [Category.query.all()] *)
Definition Question_query_all (db : Db) : list Question.t := questions_table db.
Definition Category_query_all (db : Db) : list Category.t := categories_table db.

(** [.order_by(Question.id)]: a stable sort on the identifier. *)
Fixpoint insert_by_id (q : Question.t) (l : list Question.t) : list Question.t :=
  match l with
  | [] => [q]
  | x :: l' =>
      if Question.id q <=? Question.id x then q :: l else x :: insert_by_id q l'
  end.

Definition order_by_id (l : list Question.t) : list Question.t :=
  fold_right insert_by_id [] l.

(** [.one_or_none()] *)
Definition one_or_none {A : Type} (l : list A) : result (option A) :=
  match l with
  | [] => Ok None
  | [x] => Ok (Some x)
  | _ :: _ :: _ => Raise MultipleResultsFound
  end.

(** [.filter(Question.question.ilike(pattern))] *)
Fixpoint filter_ilike (pattern : string) (l : list Question.t)
  : result (list Question.t) :=
  match l with
  | [] => Ok []
  | q :: l' =>
      b <- Sql.ilike (Question.question q) pattern ;;
      r <- filter_ilike pattern l' ;;
      Ok (if b then q :: r else r)
  end.

(** Modelled from the spec: [Question.delete] of [models.py]; the row with
    the question's identifier leaves the table, nothing else changes. *)
Definition Question_delete (q : Question.t) (db : Db) : Db :=
  MkDb (filter (fun x => negb (Question.id x =? Question.id q)) (questions_table db))
       (categories_table db)
       (questions_id_seq db).

(** What the persistence layer makes of the four values of a new question.
    The handler hands the values of the body to [Question(...)] as they are;
    [models.py] and the database behind it, which are not among the sources,
    either refuse them with an exception or settle the two texts and the two
    integers the row holds.  Which values they take, and how they store them,
    is a parameter of the development. *)
Class Columns : Type :=
  { store_values :
      value -> value -> value -> value -> result (string * string * Z * Z) }.

(** Modelled from the spec: the constructor and [Question.insert] of
    [models.py]; the new row gets the next identifier of the sequence and is
    stored after the existing rows.  When the persistence layer refuses the
    values the insert fails and leaves the tables as they were. *)
Definition Question_insert {cols : Columns}
  (question answer category difficulty : value) (db : Db)
  : result Question.t * Db :=
  match store_values question answer category difficulty with
  | Ok (q, a, c, d) =>
      let row := Question.Build (questions_id_seq db) q a c d in
      (Ok row,
       MkDb (questions_table db ++ [row]) (categories_table db)
            (questions_id_seq db + 1))
  | Raise e => (Raise e, db)
  end.

(* ================================================================= *)
(** ** Flask: requests, responses, [abort], error handlers *)

Record Request : Type := MkRequest
  { args : list (string * string);   (* the query string *)
    json : value }.                  (* request.get_json() *)

Inductive Response : Type :=
| JsonResponse (body : value) (status : Z)
| ErrorPage (status : Z).

Definition jsonify (d : dict) : Response := JsonResponse (VDict d) 200.

Definition abort {A : Type} (code : Z) : result A := Raise (HTTPException code).

Fixpoint args_lookup (a : list (string * string)) (k : string) : option string :=
  match a with
  | [] => None
  | (k', v) :: a' => if String.eqb k' k then Some v else args_lookup a' k
  end.

(** [request.args.get(k, default, type=int)]: the default also stands in
    for a value that [int] rejects. *)
Definition args_get_int (a : list (string * string)) (k : string) (default : Z) : Z :=
  match args_lookup a k with
  | None => default
  | Some s =>
      match parse_int s with
      | Some z => z
      | None => default
      end
  end.

(** The three registered error handlers. *)
Definition not_found : Response :=
  JsonResponse
    (VDict [ (KStr "success", VBool false);
             (KStr "error", VInt 404);
             (KStr "message", VStr "resource not found") ]) 404.

Definition unprocessable : Response :=
  JsonResponse
    (VDict [ (KStr "success", VBool false);
             (KStr "error", VInt 422);
             (KStr "message", VStr "unprocessable") ]) 422.

Definition bad_request : Response :=
  JsonResponse
    (VDict [ (KStr "success", VBool false);
             (KStr "error", VInt 400);
             (KStr "message", VStr "bad request") ]) 400.

(** What the client receives: the view's response, the registered handler's
    envelope for an [abort] that left the view, the framework's own page for
    any other status, and a 500 for every other exception. *)
Definition dispatch (r : result Response) : Response :=
  match r with
  | Ok resp => resp
  | Raise (HTTPException code) =>
      if code =? 404 then not_found
      else if code =? 422 then unprocessable
      else if code =? 400 then bad_request
      else ErrorPage code
  | Raise _ => ErrorPage 500
  end.

Definition status_of (r : Response) : Z :=
  match r with
  | JsonResponse _ s => s
  | ErrorPage s => s
  end.

(** A field of a JSON response body. *)
Definition field (r : Response) (k : string) : option value :=
  match r with
  | JsonResponse (VDict d) _ => lookup d (KStr k)
  | _ => None
  end.

(* ================================================================= *)
(** ** The application *)

Definition QUESTIONS_PER_PAGE : Z := 10.

(** Helper used to determine which questions to display for a given page. *)
Definition paginate_questions (request : Request) (selection : list Question.t)
  : list value :=
  let page := args_get_int (args request) "page" 1 in
  let start := (page - 1) * QUESTIONS_PER_PAGE in
  let end_ := start + QUESTIONS_PER_PAGE in
  let questions := map Question.format selection in
  let current_questions := Py.slice questions start end_ in
  current_questions.

(** Helper used to fetch and return all categories. *)
Definition get_categories (db : Db) : dict :=
  let categories_query := Category_query_all db in
  fold_left
    (fun categories category =>
       setitem categories (KInt (Category.id category))
               (VStr (Category.type category)))
    categories_query [].

(** [GET /categories] *)
Definition retrieve_all_categories (db : Db) : result Response :=
  let categories := get_categories db in
  if Nat.eqb (List.length categories) 0 then abort 404
  else
    Ok (jsonify [ (KStr "success", VBool true);
                  (KStr "categories", VDict categories) ]).

(** [GET /questions] *)
Definition retrieve_all_questions (request : Request) (db : Db) : result Response :=
  let selection := Question_query_all db in
  let total_questions := List.length selection in
  let current_questions := paginate_questions request selection in
  let categories := get_categories db in
  if Nat.eqb (List.length current_questions) 0 then abort 404
  else
    Ok (jsonify [ (KStr "success", VBool true);
                  (KStr "questions", VList current_questions);
                  (KStr "total_questions", VInt (Z.of_nat total_questions));
                  (KStr "categories", VDict categories) ]).

(** [DELETE /questions/<int:id>]: the statements under [try:]. *)
Definition delete_question_try (request : Request) (id : Z) (db : Db)
  : result Response * Db :=
  match
    one_or_none (filter (fun q => Question.id q =? id) (Question_query_all db))
  with
  | Raise e => (Raise e, db)
  | Ok None => (abort 404, db)
  | Ok (Some question) =>
      let db := Question_delete question db in
      let selection := order_by_id (Question_query_all db) in
      let current_questions := paginate_questions request selection in
      (Ok (jsonify [ (KStr "success", VBool true);
                     (KStr "deleted", VInt id);
                     (KStr "questions", VList current_questions);
                     (KStr "total_questions",
                      VInt (Z.of_nat (List.length (Question_query_all db)))) ]),
       db)
  end.

(** [DELETE /questions/<int:id>]: the [try] with its bare [except:]. *)
Definition delete_question (request : Request) (id : Z) (db : Db)
  : result Response * Db :=
  let (r, db') := delete_question_try request id db in
  (try_except r (abort 422), db').

(** [POST /questions], the search branch of the [if search:]. *)
Definition create_question_search (request : Request) (search : value) (db : Db)
  : result Response :=
  selection <-
    filter_ilike ("%" ++ Py.str search ++ "%")%string
                 (order_by_id (Question_query_all db)) ;;
  let current_questions := paginate_questions request selection in
  Ok (jsonify [ (KStr "success", VBool true);
                (KStr "questions", VList current_questions);
                (KStr "total_questions", VInt (Z.of_nat (List.length selection))) ]).

(** [POST /questions], the [else] branch: a new question is posted. *)
Definition create_question_insert {cols : Columns} (request : Request)
  (new_question new_answer new_category new_difficulty : value) (db : Db)
  : result Response * Db :=
  if is_None new_question || is_None new_answer
     || is_None new_category || is_None new_difficulty
  then (abort 422, db)
  else
    match Question_insert new_question new_answer new_category new_difficulty db with
    | (Raise e, db) => (Raise e, db)
    | (Ok question, db) =>
        let selection := order_by_id (Question_query_all db) in
        let current_questions := paginate_questions request selection in
        (Ok (jsonify [ (KStr "success", VBool true);
                       (KStr "created", VInt (Question.id question));
                       (KStr "questions", VList current_questions);
                       (KStr "total_questions",
                        VInt (Z.of_nat (List.length (Question_query_all db)))) ]),
         db)
    end.

(** [POST /questions] *)
Definition create_question {cols : Columns} (request : Request) (db : Db)
  : result Response * Db :=
  match json request with
  | VDict body =>
      let new_question := Py.get body "question" VNone in
      let new_answer := Py.get body "answer" VNone in
      let new_category := Py.get body "category" VNone in
      let new_difficulty := Py.get body "difficulty" VNone in
      let search := Py.get body "searchTerm" VNone in
      let (r, db') :=
        if truthy search
        then (create_question_search request search db, db)
        else create_question_insert request new_question new_answer
                                    new_category new_difficulty db
      in
      (try_except r (abort 422), db')
  | _ => (Raise AttributeError, db)     (* [body.get] on a non-dict *)
  end.

(** [GET /categories/<int:id>/questions] *)
Definition retrieve_questions_per_category (request : Request) (id : Z) (db : Db)
  : result Response :=
  let selection :=
    filter (fun q => Question.category q =? id) (Question_query_all db) in
  let total_questions := List.length selection in
  let current_questions := paginate_questions request selection in
  let categories := get_categories db in
  if Nat.eqb (List.length current_questions) 0 then abort 404
  else
    Ok (jsonify [ (KStr "success", VBool true);
                  (KStr "questions", VList current_questions);
                  (KStr "total_questions", VInt (Z.of_nat total_questions));
                  (KStr "current_category", VInt id);
                  (KStr "categories", VDict categories) ]).

(** The questions a quiz round draws from: all of them for category 0,
    those of the category otherwise. *)
Definition quiz_questions (category : Z) (db : Db) : list Question.t :=
  if category =? 0 then Question_query_all db
  else filter (fun q => Question.category q =? category) (Question_query_all db).

(** The loop that drops the questions already used. *)
Definition poss_qs (questions : list Question.t) (previous_questions : list value)
  : list Question.t :=
  filter (fun question => negb (contains_int previous_questions (Question.id question)))
         questions.

(** [POST /quizzes].  [rnd] is the draw of [random.sample]: the element it
    picks is the one at position [rnd] modulo the number of candidates. *)
Definition retrieve_quiz_question (rnd : nat) (request : Request) (db : Db)
  : result Response :=
  match json request with
  | VDict body =>
      let category := Py.get body "quiz_category" VNone in
      let previous_questions := Py.get body "previous_questions" VNone in
      if is_None category || is_None previous_questions then abort 400
      else
        category_id <- Py.getitem category "id" ;;
        category <- Py.int category_id ;;
        previous_questions <- Py.set previous_questions ;;
        let questions := quiz_questions category db in
        match poss_qs questions previous_questions with
        | q0 :: rest =>
            let question :=
              nth (Nat.modulo rnd (List.length (q0 :: rest))) (q0 :: rest) q0 in
            Ok (jsonify [ (KStr "success", VBool true);
                          (KStr "question", Question.format question) ])
        | [] =>
            Ok (jsonify [ (KStr "success", VBool true) ])
        end
  | _ => Raise AttributeError           (* [body.get] on a non-dict *)
  end.

(** *** The endpoints as the client sees them *)

Definition GET_categories (db : Db) : Response :=
  dispatch (retrieve_all_categories db).

Definition GET_questions (request : Request) (db : Db) : Response :=
  dispatch (retrieve_all_questions request db).

Definition DELETE_question (request : Request) (id : Z) (db : Db) : Response * Db :=
  let (r, db') := delete_question request id db in (dispatch r, db').

Definition POST_questions {cols : Columns} (request : Request) (db : Db)
  : Response * Db :=
  let (r, db') := create_question request db in (dispatch r, db').

Definition GET_category_questions (request : Request) (id : Z) (db : Db) : Response :=
  dispatch (retrieve_questions_per_category request id db).

Definition POST_quizzes (rnd : nat) (request : Request) (db : Db) : Response :=
  dispatch (retrieve_quiz_question rnd request db).

(* ================================================================= *)
(** ** Definitions that follow the specification's words *)

(** The slice [l[a : b]] for indices within or past the list: skip the
    first [a] items and keep at most [b - a] of what is left. *)
Definition slice_spec {A : Type} (l : list A) (a b : nat) : list A :=
  firstn (b - a) (skipn a l).

(** The page [p] (1-based) of a list of formatted items. *)
Definition page_spec {A : Type} (l : list A) (p : Z) : list A :=
  slice_spec l (Z.to_nat ((p - 1) * 10)) (Z.to_nat ((p - 1) * 10 + 10)).

(** [term] occurs at the start of [text], up to case. *)
Fixpoint ci_prefix (term text : list ascii) : bool :=
  match term, text with
  | [], _ => true
  | _ :: _, [] => false
  | c :: term', x :: text' => Sql.ci_eqb c x && ci_prefix term' text'
  end.

(** [term] occurs somewhere in [text], up to case. *)
Fixpoint ci_substring (term text : list ascii) : bool :=
  ci_prefix term text
  || match text with
     | [] => false
     | _ :: text' => ci_substring term text'
     end.

(** The stored questions whose text contains [term], up to case, in the
    order of their identifiers. *)
Definition matching_questions (term : string) (db : Db) : list Question.t :=
  filter
    (fun q => ci_substring (list_ascii_of_string term)
                           (list_ascii_of_string (Question.question q)))
    (order_by_id (Question_query_all db)).

(** A search term without the characters the pattern language gives a
    meaning to. *)
Definition plain_char (c : ascii) : bool :=
  negb (Ascii.eqb c "%"%char || Ascii.eqb c "_"%char || Ascii.eqb c backslash).

Definition plain_term (term : string) : bool :=
  forallb plain_char (list_ascii_of_string term).

(** The page a request asks for. *)
Definition page_of (request : Request) : Z := args_get_int (args request) "page" 1.

(** The query string asks for page [p]: it carries [page=] with the decimal
    numeral of [p], or it carries no page and [p] is 1. *)
Definition asks_for_page (request : Request) (p : Z) : Prop :=
  args_lookup (args request) "page" = Some (string_of_Z p)
  \/ (args_lookup (args request) "page" = None /\ p = 1).

(** The value of a decimal numeral read from the left, from [acc]. *)
Fixpoint uint_value (acc : Z) (d : Decimal.uint) : Z :=
  match d with
  | Decimal.Nil => acc
  | Decimal.D0 l => uint_value (10 * acc + 0) l
  | Decimal.D1 l => uint_value (10 * acc + 1) l
  | Decimal.D2 l => uint_value (10 * acc + 2) l
  | Decimal.D3 l => uint_value (10 * acc + 3) l
  | Decimal.D4 l => uint_value (10 * acc + 4) l
  | Decimal.D5 l => uint_value (10 * acc + 5) l
  | Decimal.D6 l => uint_value (10 * acc + 6) l
  | Decimal.D7 l => uint_value (10 * acc + 7) l
  | Decimal.D8 l => uint_value (10 * acc + 8) l
  | Decimal.D9 l => uint_value (10 * acc + 9) l
  end.

(** The questions of one category. *)
Definition in_category (id : Z) (db : Db) : list Question.t :=
  filter (fun q => Question.category q =? id) (Question_query_all db).

(** The envelope of a successful [GET /questions]. *)
Definition questions_envelope (page : list value) (total : nat) (db : Db) : Response :=
  JsonResponse
    (VDict [ (KStr "success", VBool true);
             (KStr "questions", VList page);
             (KStr "total_questions", VInt (Z.of_nat total));
             (KStr "categories", VDict (get_categories db)) ]) 200.

(** The envelope of a successful [GET /categories/<id>/questions]. *)
Definition category_envelope (page : list value) (total : nat) (id : Z) (db : Db)
  : Response :=
  JsonResponse
    (VDict [ (KStr "success", VBool true);
             (KStr "questions", VList page);
             (KStr "total_questions", VInt (Z.of_nat total));
             (KStr "current_category", VInt id);
             (KStr "categories", VDict (get_categories db)) ]) 200.

(** The envelope of a successful [DELETE /questions/<id>]. *)
Definition deleted_envelope (id : Z) (page : list value) (total : nat) : Response :=
  JsonResponse
    (VDict [ (KStr "success", VBool true);
             (KStr "deleted", VInt id);
             (KStr "questions", VList page);
             (KStr "total_questions", VInt (Z.of_nat total)) ]) 200.

(** The rows a lookup by identifier finds. *)
Definition with_id (id : Z) (db : Db) : list Question.t :=
  filter (fun q => Question.id q =? id) (Question_query_all db).

(** A key of the body that is missing or bound to [null]: [body.get]
    answers [None] for both. *)
Definition absent_or_null (body : dict) (k : string) : Prop :=
  lookup body (KStr k) = None \/ lookup body (KStr k) = Some VNone.

(** [int(category['id'])], the category identifier of a quiz request. *)
Definition quiz_category_id (category : value) : result Z :=
  category_id <- Py.getitem category "id" ;;
  Py.int category_id.

(** The answer of [POST /quizzes] when no candidate is left. *)
Definition quiz_over : Response :=
  JsonResponse (VDict [ (KStr "success", VBool true) ]) 200.

(** The answer of [POST /quizzes] that carries a question. *)
Definition quiz_next (question : Question.t) : Response :=
  JsonResponse (VDict [ (KStr "success", VBool true);
                        (KStr "question", Question.format question) ]) 200.

(** The exceptions that are not raised by [abort]. *)
Definition not_http (e : exn) : Prop :=
  match e with
  | HTTPException _ => False
  | _ => True
  end.

(** The envelope of a search. *)
Definition search_envelope (page : list value) (total : nat) : Response :=
  JsonResponse
    (VDict [ (KStr "success", VBool true);
             (KStr "questions", VList page);
             (KStr "total_questions", VInt (Z.of_nat total)) ]) 200.

(** [text] contains a run of characters equal to [term] up to case. *)
Definition contains_ci (term text : list ascii) : Prop :=
  exists pre mid post,
    text = pre ++ mid ++ post /\ map Sql.lower mid = map Sql.lower term.

(* ================================================================= *)
(** ** Sample data *)

Definition sample_db : Db :=
  MkDb [ Question.Build 3 "What is the heaviest organ?" "The liver" 1 4;
         Question.Build 1 "Whose autobiography is entitled..." "Maya Angelou" 4 2;
         Question.Build 2 "What movie earned Tom Hanks..." "Apollo 13" 5 4 ]
       [ Category.Build 1 "Science"; Category.Build 4 "History";
         Category.Build 5 "Entertainment" ]
       4.

Definition page_request (p : string) : Request := MkRequest [("page", p)] VNone.

(** Eleven questions of category 1, and one of category 2. *)
Definition crowded_db : Db :=
  MkDb (map (fun i => Question.Build i "Is this a question?" "Yes" 1 1)
            [1; 2; 3; 4; 5; 6; 7; 8; 9; 10; 11]
        ++ [Question.Build 12 "And this one?" "Too" 2 1])
       [ Category.Build 1 "Science"; Category.Build 2 "Art" ]
       13.

(** A persistence layer for the examples: it takes two texts and two
    integers as they are and refuses everything else. *)
Definition sample_columns : Columns :=
  {| store_values question answer category difficulty :=
       match question, answer, category, difficulty with
       | VStr q, VStr a, VInt c, VInt d => Ok (q, a, c, d)
       | _, _, _, _ => Raise DataError
       end |}.

Definition empty_request : Request := MkRequest [] VNone.

Definition json_request (body : dict) : Request := MkRequest [] (VDict body).

Definition quiz_request (category_id : value) (previous_questions : list value)
  : Request :=
  json_request [ (KStr "previous_questions", VList previous_questions);
                 (KStr "quiz_category",
                  VDict [ (KStr "type", VStr "Science"); (KStr "id", category_id) ]) ].

Definition search_request (page : list (string * string)) (term : string) : Request :=
  MkRequest page (VDict [ (KStr "searchTerm", VStr term) ]).

(* ================================================================= *)
(** ** Further definitions: invariants and views of the state *)

From Stdlib Require Import Permutation.

(** The primary key of the questions table: no two rows share an
    identifier. *)
Definition ids_unique (db : Db) : Prop :=
  NoDup (map Question.id (questions_table db)).

(** The identifiers in use are below the next value of the sequence. *)
Definition ids_below_seq (db : Db) : Prop :=
  forall q, In q (questions_table db) -> Question.id q < questions_id_seq db.

(** Rows in ascending order of their identifiers. *)
Fixpoint ascending (l : list Question.t) : Prop :=
  match l with
  | [] => True
  | x :: r => (forall y, In y r -> Question.id x <= Question.id y) /\ ascending r
  end.

(** The last category row with a given identifier. *)
Definition last_category (i : Z) (db : Db) : option Category.t :=
  find (fun c => Category.id c =? i) (rev (categories_table db)).

(** The value of [request.get_json()] is a dictionary. *)
Definition is_dict (v : value) : bool :=
  match v with
  | VDict _ => true
  | _ => false
  end.

(** The pattern the search hands to [ilike]. *)
Definition search_pattern (search : value) : string :=
  ("%" ++ Py.str search ++ "%")%string.

(** The rows whose text a tokenised pattern matches, by identifier. *)
Definition rows_matching (p : list Sql.like_token) (db : Db) : list Question.t :=
  filter (fun q => Sql.matches p (list_ascii_of_string (Question.question q)))
         (order_by_id (Question_query_all db)).

(** The envelope of a successful creation. *)
Definition created_envelope (id : Z) (page : list value) (total : nat) : Response :=
  JsonResponse
    (VDict [ (KStr "success", VBool true);
             (KStr "created", VInt id);
             (KStr "questions", VList page);
             (KStr "total_questions", VInt (Z.of_nat total)) ]) 200.

(** The body of a request to create a question. *)
Definition new_question_body (question answer : string) (category difficulty : Z)
  : dict :=
  [ (KStr "question", VStr question);
    (KStr "answer", VStr answer);
    (KStr "category", VInt category);
    (KStr "difficulty", VInt difficulty) ].

(** The loop of [get_categories], from any dictionary built so far. *)
Definition categories_from (rows : list Category.t) (acc : dict) : dict :=
  fold_left
    (fun categories category =>
       setitem categories (KInt (Category.id category))
               (VStr (Category.type category)))
    rows acc.

(** A token with its literal folded to lower case. *)
Definition lower_token (t : Sql.like_token) : Sql.like_token :=
  match t with
  | Sql.Lit c => Sql.Lit (Sql.lower c)
  | other => other
  end.

(* ================================================================= *)
(** ** Slices and pages *)

Section Slices.

Context {A : Type}.
Implicit Types l : list A.


Lemma firstn_cap (k : nat) l :
  firstn k l = firstn (Nat.min k (List.length l)) l.
Proof.
  destruct (Nat.le_ge_cases k (List.length l)) as [H | H].
  - now rewrite Nat.min_l.
  - rewrite Nat.min_r by assumption.
    now rewrite !firstn_all2 by lia.
Qed.

Lemma firstn_same_cap (j k : nat) l :
  Nat.min j (List.length l) = Nat.min k (List.length l) ->
  firstn j l = firstn k l.
Proof.
  intros E. rewrite (firstn_cap j), (firstn_cap k). now rewrite E.
Qed.

(** With both bounds non-negative and in order, the slice is what is left
    after skipping [a] items, cut at [b - a] items. *)
Lemma slice_nonneg l (a b : Z) :
  0 <= a <= b ->
  Py.slice l a b = slice_spec l (Z.to_nat a) (Z.to_nat b).
Proof.
  intros [Ha Hab]. unfold Py.slice, slice_spec, adjust_index.
  destruct (Z.ltb_spec a 0) as [? | _]; [lia |].
  destruct (Z.ltb_spec b 0) as [? | _]; [lia |].
  destruct (Z_le_gt_dec a (Z.of_nat (List.length l))) as [Hal | Hal].
  - rewrite (Z.min_l a) by assumption.
    apply firstn_same_cap. rewrite length_skipn. lia.
  - rewrite (Z.min_r a) by lia.
    rewrite !skipn_all2 by lia. now rewrite !firstn_nil.
Qed.

(** A slice that starts at or after the end of the list is empty. *)
Lemma slice_past_end l (a b : Z) :
  Z.of_nat (List.length l) <= a -> Py.slice l a b = [].
Proof.
  intros H. unfold Py.slice, adjust_index.
  destruct (Z.ltb_spec a 0) as [? | _]; [lia |].
  rewrite (Z.min_r a) by assumption.
  rewrite skipn_all2 by lia. apply firstn_nil.
Qed.

(** Negative bounds count from the end of the list. *)
Lemma slice_negative l (a b : Z) :
  a < 0 -> b < 0 ->
  Py.slice l a b =
  slice_spec l (Z.to_nat (Z.max (Z.of_nat (List.length l) + a) 0)) (Z.to_nat (Z.max (Z.of_nat (List.length l) + b) 0)).
Proof.
  intros Ha Hb. unfold Py.slice, slice_spec, adjust_index.
  destruct (Z.ltb_spec a 0) as [_ | ?]; [| lia].
  destruct (Z.ltb_spec b 0) as [_ | ?]; [| lia].
  rewrite (Z.add_comm a), (Z.add_comm b).
  f_equal. lia.
Qed.

(** A slice that stops at index 0 is empty. *)
Lemma slice_stop_0 l (a : Z) : Py.slice l a 0 = [].
Proof.
  unfold Py.slice, adjust_index.
  change (0 <? 0) with false. cbv iota.
  set (lo := if a <? 0 then _ else _).
  assert (Hlo : 0 <= lo) by (subst lo; destruct (Z.ltb_spec a 0); lia).
  now replace (Z.to_nat (Z.min 0 (Z.of_nat (List.length l)) - lo)) with 0%nat by lia.
Qed.

Lemma slice_length_le l (a b : Z) :
  a <= b -> (a < 0 -> b <= 0) ->
  (List.length (Py.slice l a b) <= Z.to_nat (b - a))%nat.
Proof.
  intros Hab Hsign. unfold Py.slice, adjust_index.
  etransitivity; [apply firstn_le_length |].
  destruct (Z.ltb_spec a 0), (Z.ltb_spec b 0); lia.
Qed.

Lemma slice_nil (a b : Z) : Py.slice (@nil A) a b = [].
Proof.
  unfold Py.slice. now rewrite skipn_nil, firstn_nil.
Qed.

Lemma page_spec_nil (p : Z) : page_spec (@nil A) p = [].
Proof.
  unfold page_spec, slice_spec. now rewrite skipn_nil, firstn_nil.
Qed.

(** The first page of a list of at most ten items is the list. *)
Lemma page_spec_first_short l :
  (List.length l <= 10)%nat -> page_spec l 1 = l.
Proof.
  intros H. unfold page_spec, slice_spec. cbn. destruct l as [| x l]; [reflexivity |].
  change (firstn 10 (x :: l) = x :: l). now apply firstn_all2.
Qed.

Lemma page_spec_length l (p : Z) :
  1 <= p -> (List.length (page_spec l p) <= 10)%nat.
Proof.
  intros Hp. unfold page_spec, slice_spec.
  etransitivity; [apply firstn_le_length | lia].
Qed.

Lemma length_0_nil l : Nat.eqb (List.length l) 0 = true <-> l = [].
Proof.
  destruct l; cbn; split; congruence.
Qed.

End Slices.

(** *** The pagination helper *)

Lemma page_of_default request :
  args_lookup (args request) "page" = None -> page_of request = 1.
Proof.
  unfold page_of, args_get_int. now intros ->.
Qed.

Lemma paginate_questions_slice request selection :
  paginate_questions request selection =
  Py.slice (map Question.format selection)
           ((page_of request - 1) * 10) ((page_of request - 1) * 10 + 10).
Proof. reflexivity. Qed.

Lemma paginate_questions_page request selection :
  1 <= page_of request ->
  paginate_questions request selection =
  page_spec (map Question.format selection) (page_of request).
Proof.
  intros Hp. rewrite paginate_questions_slice.
  unfold page_spec. apply slice_nonneg. lia.
Qed.

Lemma paginate_questions_nil request : paginate_questions request [] = [].
Proof.
  rewrite paginate_questions_slice. apply slice_nil.
Qed.

(** *** Reading back the decimal numeral of a page *)

Lemma strip_no_space (l : list ascii) :
  forallb (fun c => negb (is_space c)) l = true -> strip l = l.
Proof.
  intros H. unfold strip.
  assert (L : forall m, forallb (fun c => negb (is_space c)) m = true ->
                        lstrip m = m).
  { intros [| c m] Hm; [reflexivity |].
    cbn [forallb] in Hm. apply andb_true_iff in Hm as [Hc _].
    apply negb_true_iff in Hc. cbn [lstrip]. now rewrite Hc. }
  rewrite (L l H), L; [apply rev_involutive |].
  apply forallb_forall. intros x Hx. apply in_rev in Hx.
  rewrite forallb_forall in H. now apply H.
Qed.

Lemma numeral_no_space (d : Decimal.uint) :
  forallb (fun c => negb (is_space c))
          (list_ascii_of_string (NilEmpty.string_of_uint d)) = true.
Proof.
  induction d; cbn [NilEmpty.string_of_uint list_ascii_of_string forallb];
    [reflexivity | ..]; rewrite IHd; reflexivity.
Qed.

(** The digits of a numeral are read back to its value. *)
Lemma digits_numeral (d : Decimal.uint) :
  forall (acc : Z) (b : bool),
    b = true \/ d <> Decimal.Nil ->
    digits acc b (list_ascii_of_string (NilEmpty.string_of_uint d))
    = Some (uint_value acc d).
Proof.
  induction d; intros acc b H;
    cbn [NilEmpty.string_of_uint list_ascii_of_string digits uint_value];
    [destruct H as [-> | H]; [reflexivity | contradiction] | ..];
    match goal with
    | |- context [digit_of ?c] =>
        let v := eval vm_compute in (digit_of c) in
        change (digit_of c) with v
    end;
    cbv iota beta; apply IHd; now left.
Qed.

Lemma uint_value_acc (d : Decimal.uint) (acc : positive) :
  Z.pos (Pos.of_uint_acc d acc) = uint_value (Z.pos acc) d.
Proof.
  revert acc. induction d; intros acc; cbn [Pos.of_uint_acc uint_value];
    [reflexivity | ..]; rewrite IHd; f_equal; lia.
Qed.

Lemma uint_value_of_uint (d : Decimal.uint) : Z.of_uint d = uint_value 0 d.
Proof.
  unfold Z.of_uint.
  induction d; cbn [Pos.of_uint uint_value Z.of_N];
    [reflexivity | exact IHd | ..]; apply uint_value_acc.
Qed.

Lemma parse_int_numeral (d : Decimal.uint) :
  parse_int (NilZero.string_of_uint d) = Some (Z.of_uint d).
Proof.
  destruct (Decimal.uint_eq_dec d Decimal.Nil) as [-> | Hd]; [reflexivity |].
  assert (E : NilZero.string_of_uint d = NilEmpty.string_of_uint d)
    by (destruct d; [contradiction | ..]; reflexivity).
  rewrite E, uint_value_of_uint. unfold parse_int.
  rewrite strip_no_space by apply numeral_no_space.
  rewrite <- (digits_numeral d 0 false (or_intror Hd)).
  destruct d; [contradiction | ..]; reflexivity.
Qed.

Lemma parse_int_negative_numeral (d : Decimal.uint) :
  parse_int (String "-" (NilZero.string_of_uint d)) = Some (- Z.of_uint d).
Proof.
  destruct (Decimal.uint_eq_dec d Decimal.Nil) as [-> | Hd]; [reflexivity |].
  assert (E : NilZero.string_of_uint d = NilEmpty.string_of_uint d)
    by (destruct d; [contradiction | ..]; reflexivity).
  rewrite E, uint_value_of_uint. unfold parse_int.
  cbn [list_ascii_of_string].
  rewrite strip_no_space
    by (cbn [forallb]; rewrite numeral_no_space; reflexivity).
  change (Ascii.eqb "-" "+") with false. change (Ascii.eqb "-" "-") with true.
  cbv iota. now rewrite (digits_numeral d 0 false (or_intror Hd)).
Qed.

(** [int] reads the decimal numeral of every integer back. *)
Lemma parse_int_string_of_Z (z : Z) : parse_int (string_of_Z z) = Some z.
Proof.
  unfold string_of_Z. rewrite <- (DecimalZ.of_to z) at 2.
  destruct (Z.to_int z) as [d | d]; cbn [NilZero.string_of_int Z.of_int].
  - apply parse_int_numeral.
  - apply parse_int_negative_numeral.
Qed.

(** A query string that asks for page [p] is read as page [p]. *)
Lemma asks_for_page_of request (p : Z) :
  asks_for_page request p -> page_of request = p.
Proof.
  unfold asks_for_page, page_of, args_get_int.
  intros [-> | [-> ->]]; [| reflexivity].
  now rewrite parse_int_string_of_Z.
Qed.

(** The helper in terms of the page number it reads. *)
Lemma paginate_questions_by_page (request : Request) (selection : list Question.t) :
  let p := page_of request in
  let items := map Question.format selection in
  let n := Z.of_nat (List.length items) in
  let page := paginate_questions request selection in
  page = Py.slice items ((p - 1) * 10) ((p - 1) * 10 + 10)
  /\ (1 <= p -> page = page_spec items p)
  /\ (n <= (p - 1) * 10 -> page = [])
  /\ (p = 0 -> page = [])
  /\ (p < 0 ->
      page = slice_spec items (Z.to_nat (Z.max (n + (p - 1) * 10) 0))
                              (Z.to_nat (Z.max (n + (p - 1) * 10 + 10) 0)))
  /\ (List.length page <= 10)%nat.
Proof.
  intros p items n page.
  assert (E : page = Py.slice items ((p - 1) * 10) ((p - 1) * 10 + 10))
    by apply paginate_questions_slice.
  split; [exact E |].
  split; [intros Hp; now apply paginate_questions_page |].
  split; [intros Hn; rewrite E; now apply slice_past_end |].
  split; [intros ->; rewrite E; apply slice_stop_0 |].
  split.
  - intros Hp. rewrite E, slice_negative by lia.
    subst n. now rewrite Z.add_assoc.
  - rewrite E.
    etransitivity; [apply slice_length_le; lia |].
    lia.
Qed.

(** C9: for every integer p, positive or not, and a request whose query
    string asks for page p (page= with the decimal numeral of p), the
    pagination helper reads p and returns Python's slice
    [(p-1)*10 : (p-1)*10 + 10] of the formatted items, the page number being
    used as given: for p >= 1 these are the items after the first (p-1)*10,
    at most ten of them; a page that starts at or past the end of the data
    is empty (and not the last page); page 0 is empty, and a negative page
    counts from the end of the list (neither is treated as page 1).  No page
    has more than ten items. *)
Theorem C9_paginate_questions_slice :
  forall (p : Z) (request : Request) (selection : list Question.t),
    asks_for_page request p ->
    let items := map Question.format selection in
    let n := Z.of_nat (List.length items) in
    let page := paginate_questions request selection in
    page_of request = p
    /\ page = Py.slice items ((p - 1) * 10) ((p - 1) * 10 + 10)
    /\ (1 <= p -> page = page_spec items p)
    /\ (n <= (p - 1) * 10 -> page = [])
    /\ (p = 0 -> page = [])
    /\ (p < 0 ->
        page = slice_spec items (Z.to_nat (Z.max (n + (p - 1) * 10) 0))
                                (Z.to_nat (Z.max (n + (p - 1) * 10 + 10) 0)))
    /\ (List.length page <= 10)%nat.
Proof.
  intros p request selection Hasks items n page.
  pose proof (asks_for_page_of request p Hasks) as Hp.
  split; [exact Hp |].
  pose proof (paginate_questions_by_page request selection) as H.
  cbv zeta in H. rewrite Hp in H. exact H.
Qed.

Lemma C9_witness :
  (asks_for_page (page_request "0") 0
   /\ paginate_questions (page_request "0") (questions_table crowded_db) = [])
  /\ (asks_for_page (page_request "-1") (-1)
      /\ paginate_questions (page_request "-1") (questions_table crowded_db)
         = [ Question.format (Question.Build 1 "Is this a question?" "Yes" 1 1);
             Question.format (Question.Build 2 "Is this a question?" "Yes" 1 1) ])
  /\ (asks_for_page (page_request "3") 3
      /\ paginate_questions (page_request "3") (questions_table crowded_db) = []).
Proof.
  assert (H0 : asks_for_page (page_request "0") 0) by (left; reflexivity).
  assert (H1 : asks_for_page (page_request "-1") (-1)) by (left; reflexivity).
  assert (H3 : asks_for_page (page_request "3") 3) by (left; reflexivity).
  split; [| split].
  - split; [exact H0 |].
    destruct (C9_paginate_questions_slice 0 (page_request "0")
                (questions_table crowded_db) H0) as (_ & _ & _ & _ & H & _).
    now apply H.
  - split; [exact H1 |].
    destruct (C9_paginate_questions_slice (-1) (page_request "-1")
                (questions_table crowded_db) H1) as (_ & _ & _ & _ & _ & H & _).
    rewrite H by lia. reflexivity.
  - split; [exact H3 |].
    destruct (C9_paginate_questions_slice 3 (page_request "3")
                (questions_table crowded_db) H3) as (_ & _ & _ & H & _).
    apply H. cbn. lia.
Defined.

(* ================================================================= *)
(** ** Listing questions *)

Lemma GET_questions_cases request db :
  let page := paginate_questions request (Question_query_all db) in
  (page = [] /\ GET_questions request db = not_found)
  \/ (page <> [] /\
      GET_questions request db =
      questions_envelope page (List.length (questions_table db)) db).
Proof.
  intros page. unfold GET_questions, retrieve_all_questions. fold page.
  destruct page as [| x r]; [left | right]; split;
    try reflexivity; discriminate.
Qed.

(** C3: for GET /questions?page=p with an integer p >= 1 (the query
    string carries the decimal numeral of p, or no page at all and p is 1),
    the answer is the 404 envelope exactly when the slice
    [(p-1)*10 : (p-1)*10 + 10] of the formatted list of all questions is
    empty; otherwise it is the success envelope whose questions field is that
    slice and whose total_questions is the number of stored questions,
    whatever p is. *)
Theorem C3_retrieve_all_questions_page :
  forall (request : Request) (db : Db) (p : Z),
    asks_for_page request p ->
    1 <= p ->
    let formatted := map Question.format (Question_query_all db) in
    let page := page_spec formatted p in
    page_of request = p
    /\ (args_lookup (args request) "page" = None -> p = 1)
    /\ (GET_questions request db = not_found <-> page = [])
    /\ (page <> [] ->
        GET_questions request db =
        questions_envelope page (List.length (questions_table db)) db
        /\ field (GET_questions request db) "questions" = Some (VList page)
        /\ field (GET_questions request db) "total_questions" =
           Some (VInt (Z.of_nat (List.length (questions_table db))))).
Proof.
  intros request db p Hasks Hp1 formatted page.
  pose proof (asks_for_page_of request p Hasks) as Hp.
  assert (E : paginate_questions request (Question_query_all db) = page).
  { rewrite paginate_questions_page by lia. now rewrite Hp. }
  split; [exact Hp |].
  split.
  { intros Habsent. rewrite <- Hp. now apply page_of_default. }
  destruct (GET_questions_cases request db) as [[Hnil Hr] | [Hne Hr]];
    rewrite E in *; rewrite Hr.
  - split; [tauto | congruence].
  - split; [split; [discriminate | congruence] |].
    intros _. repeat split; reflexivity.
Qed.

Lemma C3_witness :
  asks_for_page (page_request "2") 2
  /\ 1 <= 2
  /\ field (GET_questions (page_request "2") crowded_db) "questions"
     = Some (VList
               [ Question.format (Question.Build 11 "Is this a question?" "Yes" 1 1);
                 Question.format (Question.Build 12 "And this one?" "Too" 2 1) ])
  /\ field (GET_questions (page_request "2") crowded_db) "total_questions"
     = Some (VInt 12).
Proof.
  assert (H2 : asks_for_page (page_request "2") 2) by (left; reflexivity).
  split; [exact H2 |]. split; [lia |].
  destruct (C3_retrieve_all_questions_page (page_request "2") crowded_db 2
              H2 ltac:(lia)) as (_ & _ & _ & H).
  destruct H as (_ & Hq & Ht); [discriminate |].
  split; [exact Hq | exact Ht].
Defined.

(* ================================================================= *)
(** ** Questions of one category *)

Lemma GET_category_questions_cases request id db :
  let page := paginate_questions request (in_category id db) in
  (page = [] /\ GET_category_questions request id db = not_found)
  \/ (page <> [] /\
      GET_category_questions request id db =
      category_envelope page (List.length (in_category id db)) id db).
Proof.
  intros page. unfold GET_category_questions, retrieve_questions_per_category.
  fold (in_category id db). fold page.
  destruct page as [| x r]; [left | right]; split;
    try reflexivity; discriminate.
Qed.

(** C6, as stated, fails: a category with eleven questions is answered
    with ten of them only, and page 2 of a category with one question is
    answered with the 404 envelope although the category is not empty. *)
Lemma C6_counterexample :
  (exists l,
      field (GET_category_questions (MkRequest [] VNone) 1 crowded_db) "questions"
      = Some (VList l)
      /\ List.length l = 10%nat
      /\ List.length (in_category 1 crowded_db) = 11%nat)
  /\ (GET_category_questions (page_request "2") 2 crowded_db = not_found
      /\ List.length (in_category 2 crowded_db) = 1%nat).
Proof.
  split.
  - eexists. split; [reflexivity |]. split; reflexivity.
  - split; reflexivity.
Qed.

(** C6, amended: for GET /categories/<id>/questions?page=p with p >= 1
    (p is 1 when the parameter is absent), the answer is the 404 envelope
    exactly when page p (ten items a page) of the questions whose category is
    id is empty, which includes every category without questions; otherwise
    questions is that page of the formatted questions of the category,
    total_questions is the number of all questions of the category and
    current_category is id.  On page 1 a category of at most ten questions
    is returned whole. *)
Theorem C6_retrieve_questions_per_category_page :
  forall (request : Request) (id : Z) (db : Db) (p : Z),
    page_of request = p ->
    1 <= p ->
    let selection := in_category id db in
    let page := page_spec (map Question.format selection) p in
    (args_lookup (args request) "page" = None -> p = 1)
    /\ (selection = [] -> GET_category_questions request id db = not_found)
    /\ (GET_category_questions request id db = not_found <-> page = [])
    /\ (page <> [] ->
        GET_category_questions request id db =
        category_envelope page (List.length selection) id db)
    /\ (p = 1 -> (List.length selection <= 10)%nat ->
        page = map Question.format selection)
    /\ (forall q, In q selection <-> In q (questions_table db) /\ Question.category q = id).
Proof.
  intros request id db p Hp Hp1 selection page.
  assert (E : paginate_questions request (in_category id db) = page).
  { rewrite paginate_questions_page by lia. now rewrite Hp. }
  split.
  { intros Habsent. rewrite <- Hp. now apply page_of_default. }
  assert (Hiff : GET_category_questions request id db = not_found <-> page = []).
  { destruct (GET_category_questions_cases request id db) as [[Hnil Hr] | [Hne Hr]];
      rewrite E in *; rewrite Hr.
    - tauto.
    - split; [discriminate | congruence]. }
  split.
  { intros Hsel. apply Hiff. subst page. rewrite Hsel. apply page_spec_nil. }
  split; [exact Hiff |].
  split.
  { intros Hne.
    destruct (GET_category_questions_cases request id db) as [[Hnil Hr] | [_ Hr]];
      rewrite E in *; [contradiction | exact Hr]. }
  split.
  { intros -> Hlen. apply page_spec_first_short. now rewrite length_map. }
  intros q. unfold selection, in_category, Question_query_all.
  rewrite filter_In. now rewrite Z.eqb_eq.
Qed.

Lemma C6_witness :
  page_of (page_request "2") = 2
  /\ 1 <= 2
  /\ GET_category_questions (page_request "2") 1 crowded_db =
     category_envelope
       [Question.format (Question.Build 11 "Is this a question?" "Yes" 1 1)]
       11 1 crowded_db.
Proof.
  split; [reflexivity |]. split; [lia |].
  destruct (C6_retrieve_questions_per_category_page
              (page_request "2") 1 crowded_db 2 eq_refl ltac:(lia))
    as (_ & _ & _ & H & _).
  apply H. discriminate.
Defined.

(* ================================================================= *)
(** ** Deleting a question *)

Lemma filter_split_length {A : Type} (f : A -> bool) (l : list A) :
  (List.length (filter (fun x => negb (f x)) l) + List.length (filter f l)
   = List.length l)%nat.
Proof.
  induction l as [| x l IH]; [reflexivity |].
  cbn. destruct (f x); cbn; lia.
Qed.

Lemma filter_negb_none {A : Type} (f : A -> bool) (l : list A) :
  filter f (filter (fun x => negb (f x)) l) = [].
Proof.
  induction l as [| x l IH]; [reflexivity |].
  cbn. destruct (f x) eqn:E; cbn; [exact IH |].
  now rewrite E.
Qed.

Lemma with_id_In id db q : In q (with_id id db) -> Question.id q = id.
Proof.
  unfold with_id. rewrite filter_In, Z.eqb_eq. tauto.
Qed.

(** No row with the identifier: the [abort(404)] of the handler is raised
    inside the [try] and the bare [except] turns it into a 422. *)
Lemma delete_question_missing request id db :
  with_id id db = [] ->
  fst (delete_question_try request id db) = abort 404
  /\ DELETE_question request id db = (unprocessable, db).
Proof.
  unfold with_id, DELETE_question, delete_question, delete_question_try.
  intros ->. split; reflexivity.
Qed.

Lemma delete_question_found request id db q :
  with_id id db = [q] ->
  DELETE_question request id db =
  (deleted_envelope id
     (paginate_questions request
        (order_by_id (Question_query_all (Question_delete q db))))
     (List.length (questions_table (Question_delete q db))),
   Question_delete q db).
Proof.
  unfold with_id, DELETE_question, delete_question, delete_question_try.
  intros ->. reflexivity.
Qed.

Lemma delete_question_ambiguous request id db q1 q2 r :
  with_id id db = q1 :: q2 :: r ->
  DELETE_question request id db = (unprocessable, db).
Proof.
  unfold with_id, DELETE_question, delete_question, delete_question_try.
  intros ->. reflexivity.
Qed.

(** A 200 answer to a delete means that exactly one row had the identifier. *)
Lemma delete_question_success request id db :
  status_of (fst (DELETE_question request id db)) = 200 ->
  exists q, with_id id db = [q].
Proof.
  intros H. destruct (with_id id db) as [| q1 [| q2 r]] eqn:E.
  - apply (delete_question_missing request) in E as [_ E].
    rewrite E in H. discriminate H.
  - now exists q1.
  - apply (delete_question_ambiguous request) in E.
    rewrite E in H. discriminate H.
Qed.

(** C1: deleting an identifier that no question has.  The handler raises
    the 404 it means to answer with, but it does so under its own bare
    [except], and what the client receives is the 422 envelope, not the 404
    one. *)
Theorem C1_delete_missing_id_answers_422 :
  with_id 500 sample_db = []
  /\ fst (delete_question_try empty_request 500 sample_db)
     = Raise (HTTPException 404)
  /\ DELETE_question empty_request 500 sample_db = (unprocessable, sample_db)
  /\ status_of (fst (DELETE_question empty_request 500 sample_db)) = 422.
Proof.
  repeat split.
Qed.

(** C5: DELETE /questions/<id> succeeds exactly when one stored question
    has the identifier.  After a successful delete a lookup by the
    identifier finds nothing, every other row is stored as before (same
    rows, same order, the categories untouched), total_questions is the
    previous total minus one, and deleted is the requested identifier. *)
Theorem C5_delete_question_frame :
  forall (request : Request) (id : Z) (db : Db),
    let response := fst (DELETE_question request id db) in
    let db' := snd (DELETE_question request id db) in
    (status_of response = 200 <-> exists q, with_id id db = [q])
    /\ (status_of response = 200 ->
        (exists q, with_id id db = [q] /\ Question.id q = id
                   /\ In q (questions_table db))
        /\ one_or_none (with_id id db') = Ok None
        /\ (forall x, Question.id x <> id ->
                      (In x (questions_table db') <-> In x (questions_table db)))
        /\ questions_table db' =
           filter (fun x => negb (Question.id x =? id)) (questions_table db)
        /\ categories_table db' = categories_table db
        /\ field response "total_questions" =
           Some (VInt (Z.of_nat (List.length (questions_table db)) - 1))
        /\ field response "deleted" = Some (VInt id)).
Proof.
  intros request id db response db'.
  split.
  { split; [apply delete_question_success |].
    intros [q Hq]. unfold response.
    now rewrite (delete_question_found request id db q Hq). }
  intros Hok.
  destruct (delete_question_success request id db Hok) as [q Hq].
  assert (Hid : Question.id q = id).
  { apply (with_id_In id db). rewrite Hq. now left. }
  assert (Hin : In q (questions_table db)).
  { assert (H : In q (with_id id db)) by (rewrite Hq; now left).
    unfold with_id in H. now apply filter_In in H. }
  assert (Htab : questions_table db' =
                 filter (fun x => negb (Question.id x =? id)) (questions_table db)).
  { unfold db'. rewrite (delete_question_found request id db q Hq).
    cbn. now rewrite Hid. }
  assert (Hlen : (List.length (questions_table db') + 1
                  = List.length (questions_table db))%nat).
  { rewrite Htab.
    pose proof (filter_split_length (fun x => Question.id x =? id)
                                    (questions_table db)) as L.
    unfold with_id, Question_query_all in Hq. rewrite Hq in L. exact L. }
  split; [now exists q |].
  split.
  { unfold with_id, Question_query_all. rewrite Htab.
    now rewrite (filter_negb_none (fun x => Question.id x =? id)). }
  split.
  { intros x Hx. rewrite Htab, filter_In.
    assert (E : (Question.id x =? id) = false) by now apply Z.eqb_neq.
    rewrite E. cbn. tauto. }
  split; [exact Htab |].
  split.
  { unfold db'. now rewrite (delete_question_found request id db q Hq). }
  split.
  { unfold response. rewrite (delete_question_found request id db q Hq).
    cbn. do 2 f_equal.
    assert (E : questions_table (Question_delete q db) = questions_table db').
    { unfold db'. now rewrite (delete_question_found request id db q Hq). }
    cbn in E. rewrite E. lia. }
  unfold response. now rewrite (delete_question_found request id db q Hq).
Qed.

Lemma C5_witness :
  status_of (fst (DELETE_question empty_request 1 sample_db)) = 200
  /\ field (fst (DELETE_question empty_request 1 sample_db)) "total_questions"
     = Some (VInt 2)
  /\ questions_table (snd (DELETE_question empty_request 1 sample_db))
     = [ Question.Build 3 "What is the heaviest organ?" "The liver" 1 4;
         Question.Build 2 "What movie earned Tom Hanks..." "Apollo 13" 5 4 ].
Proof.
  destruct (C5_delete_question_frame empty_request 1 sample_db) as [_ H].
  destruct (H eq_refl) as (_ & _ & _ & Htab & _ & Htotal & _).
  split; [reflexivity |]. split; [exact Htotal | exact Htab].
Defined.

(* ================================================================= *)
(** ** Creating a question *)

Lemma get_is_None body k :
  is_None (Py.get body k VNone) = true <-> absent_or_null body k.
Proof.
  unfold Py.get, absent_or_null.
  destruct (lookup body (KStr k)) as [v |].
  - destruct v; cbn; split; intros H;
      try discriminate H; try (now right); try reflexivity;
      destruct H as [H | H]; discriminate H.
  - cbn. split; [now left | reflexivity].
Qed.

(** A search term that is missing, [null] or the empty string is falsy. *)
Lemma no_search_term_falsy body :
  absent_or_null body "searchTerm"
  \/ lookup body (KStr "searchTerm") = Some (VStr "") ->
  truthy (Py.get body "searchTerm" VNone) = false.
Proof.
  unfold Py.get, absent_or_null.
  intros [[-> | ->] | ->]; reflexivity.
Qed.

(** With a falsy search term the handler is its [else] branch under the
    [try]. *)
Lemma create_question_no_search {cols : Columns} request db body :
  json request = VDict body ->
  truthy (Py.get body "searchTerm" VNone) = false ->
  create_question request db =
  (let (r, db') :=
     create_question_insert request
       (Py.get body "question" VNone) (Py.get body "answer" VNone)
       (Py.get body "category" VNone) (Py.get body "difficulty" VNone) db in
   (try_except r (abort 422), db')).
Proof.
  intros Hjson Hsearch. unfold create_question. rewrite Hjson, Hsearch.
  reflexivity.
Qed.

Lemma create_question_insert_missing {cols : Columns} request q a c d db :
  is_None q || is_None a || is_None c || is_None d = true ->
  create_question_insert request q a c d db = (abort 422, db).
Proof.
  intros H. unfold create_question_insert. now rewrite H.
Qed.

(** C7: a POST /questions without a search term (none, [null], the empty
    string or any other falsy value) that lacks one of question, answer,
    category and difficulty is answered with the 422 envelope, and the
    stored questions, hence their number, are as before. *)
Theorem C7_create_missing_field_unprocessable {cols : Columns} :
  forall (request : Request) (db : Db) (body : dict),
    json request = VDict body ->
    truthy (Py.get body "searchTerm" VNone) = false ->
    absent_or_null body "question" \/ absent_or_null body "answer"
    \/ absent_or_null body "category" \/ absent_or_null body "difficulty" ->
    POST_questions request db = (unprocessable, db)
    /\ questions_table (snd (POST_questions request db)) = questions_table db.
Proof.
  intros request db body Hjson Hsearch Hmissing.
  assert (E : POST_questions request db = (unprocessable, db)).
  { unfold POST_questions.
    rewrite (create_question_no_search request db body Hjson Hsearch).
    rewrite create_question_insert_missing; [reflexivity |].
    rewrite !orb_true_iff, !get_is_None. tauto. }
  split; [exact E | now rewrite E].
Qed.

Lemma C7_witness :
  POST_questions (cols := sample_columns)
    (json_request [ (KStr "question", VStr "How many lives does a cat have?");
                    (KStr "answer", VStr "Nine");
                    (KStr "difficulty", VInt 1) ]) sample_db
  = (unprocessable, sample_db).
Proof.
  apply (C7_create_missing_field_unprocessable (cols := sample_columns)
           (json_request [ (KStr "question", VStr "How many lives does a cat have?");
                           (KStr "answer", VStr "Nine");
                           (KStr "difficulty", VInt 1) ])
           sample_db _ eq_refl eq_refl).
  right. right. left. now left.
Defined.

(** C10: a body whose searchTerm is the empty string does not take the
    search path: the request is handled by the create branch, exactly as the
    same body is without a search; in particular the body that holds
    nothing but the empty searchTerm is answered with the 422 envelope, and
    nothing is stored. *)
Theorem C10_empty_search_term_is_create {cols : Columns} :
  forall (request : Request) (db : Db) (body : dict),
    json request = VDict body ->
    lookup body (KStr "searchTerm") = Some (VStr "") ->
    create_question request db =
      (let (r, db') :=
         create_question_insert request
           (Py.get body "question" VNone) (Py.get body "answer" VNone)
           (Py.get body "category" VNone) (Py.get body "difficulty" VNone) db in
       (try_except r (abort 422), db'))
    /\ (body = [ (KStr "searchTerm", VStr "") ] ->
        POST_questions request db = (unprocessable, db)).
Proof.
  intros request db body Hjson Hterm.
  assert (Hsearch : truthy (Py.get body "searchTerm" VNone) = false).
  { apply no_search_term_falsy. now right. }
  split.
  - now apply create_question_no_search.
  - intros ->. unfold POST_questions.
    rewrite (create_question_no_search request db _ Hjson Hsearch).
    reflexivity.
Qed.

Lemma C10_witness :
  POST_questions (cols := sample_columns) (json_request [ (KStr "searchTerm", VStr "") ]) sample_db
  = (unprocessable, sample_db).
Proof.
  apply (C10_empty_search_term_is_create (cols := sample_columns)
           (json_request [ (KStr "searchTerm", VStr "") ]) sample_db
           [ (KStr "searchTerm", VStr "") ] eq_refl eq_refl).
  reflexivity.
Defined.

(* ================================================================= *)
(** ** The quiz *)

Lemma getitem_not_http v k e : Py.getitem v k = Raise e -> not_http e.
Proof.
  destruct v; cbn; try (intros [= <-]; exact I).
  destruct (lookup d (KStr k)); intros [= <-]. exact I.
Qed.

Lemma int_not_http v e : Py.int v = Raise e -> not_http e.
Proof.
  destruct v; cbn; try (intros [= <-]; exact I); try discriminate.
  destruct (parse_int s); intros [= <-]. exact I.
Qed.

Lemma set_not_http v e : Py.set v = Raise e -> not_http e.
Proof.
  destruct v; cbn; try (intros [= <-]; exact I); try discriminate.
  destruct (forallb hashable l); intros [= <-]. exact I.
Qed.

Lemma quiz_category_id_not_http v e : quiz_category_id v = Raise e -> not_http e.
Proof.
  unfold quiz_category_id.
  destruct (Py.getitem v "id") as [idv | e'] eqn:E; cbn.
  - apply int_not_http.
  - intros [= <-]. now apply getitem_not_http in E.
Qed.

Lemma dispatch_not_http e : not_http e -> dispatch (Raise e) = ErrorPage 500.
Proof.
  destruct e; cbn; intros H; try reflexivity. contradiction.
Qed.

(** The element [random.sample] draws is one of the candidates. *)
Lemma drawn_In {A : Type} (rnd : nat) (x : A) (l : list A) :
  In (nth (Nat.modulo rnd (List.length (x :: l))) (x :: l) x) (x :: l).
Proof.
  apply nth_In. apply Nat.mod_upper_bound. cbn. lia.
Qed.

Lemma contains_int_In s n : In (VInt n) s -> contains_int s n = true.
Proof.
  intros H. unfold contains_int. apply existsb_exists.
  exists (VInt n). split; [assumption |]. cbn. apply Z.eqb_refl.
Qed.

(** The handler once both fields are there. *)
Lemma retrieve_quiz_question_present rnd request db body :
  json request = VDict body ->
  ~ absent_or_null body "quiz_category" ->
  ~ absent_or_null body "previous_questions" ->
  retrieve_quiz_question rnd request db =
  (category <- quiz_category_id (Py.get body "quiz_category" VNone) ;;
   previous_questions <- Py.set (Py.get body "previous_questions" VNone) ;;
   match poss_qs (quiz_questions category db) previous_questions with
   | q0 :: rest =>
       Ok (quiz_next (nth (Nat.modulo rnd (List.length (q0 :: rest))) (q0 :: rest) q0))
   | [] => Ok quiz_over
   end).
Proof.
  intros Hjson Hc Hp. unfold retrieve_quiz_question. rewrite Hjson.
  rewrite <- get_is_None in Hc, Hp.
  apply not_true_is_false in Hc, Hp. rewrite Hc, Hp. cbn [orb].
  unfold quiz_category_id.
  destruct (Py.getitem _ "id") as [idv | e]; cbn; [| reflexivity].
  destruct (Py.int idv) as [c | e]; cbn; [| reflexivity].
  destruct (Py.set _) as [s | e]; cbn; [| reflexivity].
  destruct (poss_qs _ s); reflexivity.
Qed.

(** C8: on a JSON object, POST /quizzes answers with the 400 envelope
    exactly when quiz_category or previous_questions is missing or [null];
    with both there, it never does. *)
Theorem C8_quiz_bad_request_iff :
  forall (rnd : nat) (request : Request) (db : Db) (body : dict),
    json request = VDict body ->
    (POST_quizzes rnd request db = bad_request
     <-> absent_or_null body "quiz_category"
         \/ absent_or_null body "previous_questions").
Proof.
  intros rnd request db body Hjson. unfold POST_quizzes.
  destruct (is_None (Py.get body "quiz_category" VNone)) eqn:Hc.
  { split; [intros _; left; now apply get_is_None |].
    intros _. unfold retrieve_quiz_question. now rewrite Hjson, Hc. }
  destruct (is_None (Py.get body "previous_questions" VNone)) eqn:Hp.
  { split; [intros _; right; now apply get_is_None |].
    intros _. unfold retrieve_quiz_question. now rewrite Hjson, Hc, Hp. }
  assert (Hc' : ~ absent_or_null body "quiz_category")
    by (rewrite <- get_is_None, Hc; discriminate).
  assert (Hp' : ~ absent_or_null body "previous_questions")
    by (rewrite <- get_is_None, Hp; discriminate).
  split; [| tauto].
  rewrite (retrieve_quiz_question_present rnd request db body Hjson Hc' Hp').
  destruct (quiz_category_id _) as [c | e] eqn:Ec; cbn [Py.bind].
  2:{ rewrite (dispatch_not_http e) by (now apply quiz_category_id_not_http in Ec).
      discriminate. }
  destruct (Py.set _) as [s | e] eqn:Es; cbn [Py.bind].
  2:{ rewrite (dispatch_not_http e) by (now apply set_not_http in Es).
      discriminate. }
  destruct (poss_qs _ s); discriminate.
Qed.

Lemma C8_witness :
  POST_quizzes 0 (json_request []) sample_db = bad_request.
Proof.
  apply (C8_quiz_bad_request_iff 0 (json_request []) sample_db [] eq_refl).
  left. now left.
Defined.

(** C2: a POST /quizzes whose quiz_category (with its integer id c) and
    previous_questions are both there.  A question in the answer is a
    stored question whose identifier is not among previous_questions and
    whose category is c unless c is 0, which selects all questions; when
    the identifier of every candidate is among previous_questions, the answer
    is success alone, without a question, with status 200; and as long as a
    candidate is left, a question is returned. *)
Theorem C2_quiz_selection :
  forall (rnd : nat) (request : Request) (db : Db) (body : dict)
         (c : Z) (previous : list value),
    json request = VDict body ->
    ~ absent_or_null body "quiz_category" ->
    ~ absent_or_null body "previous_questions" ->
    quiz_category_id (Py.get body "quiz_category" VNone) = Ok c ->
    Py.set (Py.get body "previous_questions" VNone) = Ok previous ->
    let candidates := quiz_questions c db in
    let response := POST_quizzes rnd request db in
    (c = 0 -> candidates = questions_table db)
    /\ (forall q, In q candidates ->
                  In q (questions_table db) /\ (c <> 0 -> Question.category q = c))
    /\ (forall qv, field response "question" = Some qv ->
          exists q,
            qv = Question.format q
            /\ In q candidates
            /\ contains_int previous (Question.id q) = false
            /\ ~ In (VInt (Question.id q)) previous)
    /\ ((forall q, In q candidates -> In (VInt (Question.id q)) previous) ->
        response = quiz_over
        /\ field response "question" = None
        /\ status_of response = 200)
    /\ (forall q, In q candidates ->
                  contains_int previous (Question.id q) = false ->
                  exists q', response = quiz_next q').
Proof.
  intros rnd request db body c previous Hjson Hc Hp Hid Hset candidates response.
  assert (E : response =
              match poss_qs candidates previous with
              | q0 :: rest =>
                  quiz_next (nth (Nat.modulo rnd (List.length (q0 :: rest)))
                                 (q0 :: rest) q0)
              | [] => quiz_over
              end).
  { unfold response, POST_quizzes.
    rewrite (retrieve_quiz_question_present rnd request db body Hjson Hc Hp).
    rewrite Hid, Hset. cbn [Py.bind]. fold candidates.
    now destruct (poss_qs candidates previous). }
  split.
  { intros ->. reflexivity. }
  split.
  { intros q Hq. unfold candidates, quiz_questions in Hq.
    destruct (Z.eqb_spec c 0) as [-> | Hc0].
    - split; [exact Hq | congruence].
    - apply filter_In in Hq as [Hin Hcat]. apply Z.eqb_eq in Hcat.
      now split. }
  split.
  { intros qv Hqv. rewrite E in Hqv.
    destruct (poss_qs candidates previous) as [| q0 rest] eqn:Eposs;
      [discriminate Hqv |].
    injection Hqv as <-.
    pose proof (drawn_In rnd q0 rest) as Hdrawn.
    set (q := nth _ _ _) in *.
    rewrite <- Eposs in Hdrawn. unfold poss_qs in Hdrawn.
    apply filter_In in Hdrawn as [Hin Hnot]. apply negb_true_iff in Hnot.
    exists q. repeat split; try assumption.
    intros Hmem. apply contains_int_In in Hmem. congruence. }
  split.
  2:{ intros q Hq Hnew. rewrite E.
      destruct (poss_qs candidates previous) as [| q0 rest] eqn:Eposs.
      - assert (Hq' : In q (poss_qs candidates previous)).
        { unfold poss_qs. apply filter_In. split; [exact Hq |]. now rewrite Hnew. }
        rewrite Eposs in Hq'. destruct Hq'.
      - now eexists. }
  intros Hall.
  assert (Eposs : poss_qs candidates previous = []).
  { unfold poss_qs.
    destruct (filter _ candidates) as [| q0 rest] eqn:Ef; [reflexivity |].
    assert (Hq0 : In q0 (filter
                   (fun question => negb (contains_int previous (Question.id question)))
                   candidates)) by (rewrite Ef; now left).
    apply filter_In in Hq0 as [Hin Hnot]. apply negb_true_iff in Hnot.
    apply Hall, contains_int_In in Hin. congruence. }
  rewrite E, Eposs. repeat split.
Qed.


Lemma C2_witness :
  POST_quizzes 7 (quiz_request (VStr "1") [VInt 3]) sample_db = quiz_over.
Proof.
  apply (C2_quiz_selection 7 (quiz_request (VStr "1") [VInt 3]) sample_db
           _ 1 [VInt 3] eq_refl).
  - intros [H | H]; discriminate H.
  - intros [H | H]; discriminate H.
  - reflexivity.
  - reflexivity.
  - intros q [<- | []]. now left.
Defined.

(* ================================================================= *)
(** ** Searching *)

Lemma list_ascii_of_string_app (a b : string) :
  list_ascii_of_string (a ++ b) = list_ascii_of_string a ++ list_ascii_of_string b.
Proof.
  induction a as [| c a IH]; [reflexivity |].
  cbn. now rewrite IH.
Qed.

(** Characters without a meaning of their own stand for themselves. *)
Lemma tokens_plain (t r : list ascii) :
  forallb plain_char t = true ->
  Sql.tokens (t ++ r) = option_map (app (map Sql.Lit t)) (Sql.tokens r).
Proof.
  induction t as [| c t IH]; intros H.
  - cbn. now destruct (Sql.tokens r).
  - cbn in H. apply andb_true_iff in H as [Hc Ht].
    unfold plain_char in Hc. apply negb_true_iff in Hc.
    apply orb_false_iff in Hc as [Hc Hb]. apply orb_false_iff in Hc as [Hp Hu].
    cbn [app Sql.tokens]. rewrite Hb, Hp, Hu, (IH Ht).
    now destruct (Sql.tokens r).
Qed.

Lemma matches_AnySeq_unfold (p : list Sql.like_token) (t : list ascii) :
  Sql.matches (Sql.AnySeq :: p) t =
  Sql.matches p t
  || match t with
     | [] => false
     | _ :: t' => Sql.matches (Sql.AnySeq :: p) t'
     end.
Proof. destruct t; reflexivity. Qed.

Lemma matches_rest (t : list ascii) : Sql.matches [Sql.AnySeq] t = true.
Proof.
  induction t as [| x t IH]; [reflexivity |].
  rewrite matches_AnySeq_unfold, IH. apply orb_true_r.
Qed.

Lemma matches_prefix (term text : list ascii) :
  Sql.matches (map Sql.Lit term ++ [Sql.AnySeq]) text = ci_prefix term text.
Proof.
  revert text. induction term as [| c term IH]; intros text.
  - cbn [map app]. rewrite matches_rest. now destruct text.
  - destruct text as [| x text]; [reflexivity |].
    cbn. now rewrite <- IH.
Qed.

Lemma matches_substring (term text : list ascii) :
  Sql.matches (Sql.AnySeq :: map Sql.Lit term ++ [Sql.AnySeq]) text
  = ci_substring term text.
Proof.
  induction text as [| x text IH];
    rewrite matches_AnySeq_unfold, matches_prefix.
  - reflexivity.
  - now rewrite IH.
Qed.

Lemma search_pattern_tokens (term : string) :
  plain_term term = true ->
  Sql.tokens (list_ascii_of_string ("%" ++ term ++ "%"))
  = Some (Sql.AnySeq :: map Sql.Lit (list_ascii_of_string term) ++ [Sql.AnySeq]).
Proof.
  intros H. cbn [String.append list_ascii_of_string Sql.tokens].
  change (Ascii.eqb "%" backslash) with false.
  change (Ascii.eqb "%" "%") with true. cbv iota.
  rewrite list_ascii_of_string_app, (tokens_plain _ _ H). reflexivity.
Qed.

(** For a plain term, the pattern of the search is a substring test. *)
Lemma ilike_plain (term text : string) :
  plain_term term = true ->
  Sql.ilike text ("%" ++ term ++ "%")
  = Ok (ci_substring (list_ascii_of_string term) (list_ascii_of_string text)).
Proof.
  intros H. unfold Sql.ilike. rewrite (search_pattern_tokens term H).
  now rewrite matches_substring.
Qed.

Lemma filter_ilike_plain (term : string) (l : list Question.t) :
  plain_term term = true ->
  filter_ilike ("%" ++ term ++ "%") l
  = Ok (filter
          (fun q => ci_substring (list_ascii_of_string term)
                                 (list_ascii_of_string (Question.question q))) l).
Proof.
  intros H. induction l as [| q l IH]; [reflexivity |].
  cbn [filter_ilike filter]. rewrite (ilike_plain term _ H), IH. reflexivity.
Qed.

(** The two boolean tests say what their names say. *)
Lemma ci_prefix_spec (term text : list ascii) :
  ci_prefix term text = true <->
  exists mid post, text = mid ++ post /\ map Sql.lower mid = map Sql.lower term.
Proof.
  revert text. induction term as [| c term IH]; intros text.
  - split; [| reflexivity]. intros _. now exists [], text.
  - destruct text as [| x text]; cbn [ci_prefix].
    + split; [discriminate |].
      intros (mid & post & E & Hm).
      destruct mid; [discriminate Hm | discriminate E].
    + rewrite andb_true_iff, IH. unfold Sql.ci_eqb. rewrite Ascii.eqb_eq.
      split.
      * intros (Hc & mid & post & -> & Hm). exists (x :: mid), post.
        split; [reflexivity |]. cbn. now rewrite Hm, Hc.
      * intros (mid & post & E & Hm).
        destruct mid as [| y mid]; [discriminate Hm |].
        cbn in E, Hm. injection E as <- ->. injection Hm as Hy Hm.
        split; [now symmetry |]. now exists mid, post.
Qed.

Lemma ci_substring_spec (term text : list ascii) :
  ci_substring term text = true <-> contains_ci term text.
Proof.
  unfold contains_ci. induction text as [| x text IH]; cbn [ci_substring].
  - rewrite orb_false_r, ci_prefix_spec. split.
    + intros (mid & post & E & Hm). now exists [], mid, post.
    + intros (pre & mid & post & E & Hm).
      destruct pre; [| discriminate E]. now exists mid, post.
  - rewrite orb_true_iff, ci_prefix_spec, IH. split.
    + intros [(mid & post & E & Hm) | (pre & mid & post & E & Hm)].
      * now exists [], mid, post.
      * exists (x :: pre), mid, post. split; [now rewrite E | exact Hm].
    + intros (pre & mid & post & E & Hm). destruct pre as [| y pre].
      * left. now exists mid, post.
      * right. cbn in E. injection E as <- ->. now exists pre, mid, post.
Qed.

(** Sorting by identifier keeps the rows. *)
Lemma insert_by_id_In (q x : Question.t) (l : list Question.t) :
  In x (insert_by_id q l) <-> x = q \/ In x l.
Proof.
  induction l as [| y l IH]; cbn.
  - intuition congruence.
  - destruct (Question.id q <=? Question.id y); cbn; [intuition congruence |].
    rewrite IH. intuition congruence.
Qed.

Lemma order_by_id_In (x : Question.t) (l : list Question.t) :
  In x (order_by_id l) <-> In x l.
Proof.
  induction l as [| y l IH]; [reflexivity |].
  unfold order_by_id in *. cbn [fold_right]. rewrite insert_by_id_In, IH.
  cbn. intuition congruence.
Qed.

Lemma matching_questions_In (term : string) (db : Db) (q : Question.t) :
  In q (matching_questions term db) <->
  In q (questions_table db)
  /\ contains_ci (list_ascii_of_string term)
                 (list_ascii_of_string (Question.question q)).
Proof.
  unfold matching_questions, Question_query_all.
  now rewrite filter_In, order_by_id_In, ci_substring_spec.
Qed.

(** C4, as stated, fails.  The term [_] is answered with all three sample
    questions, none of which contains it; and with [?page=2] the only match
    of [organ] is missing from the answer, which is page 2 and not the
    first page. *)
Lemma C4_counterexample :
  (POST_questions (cols := sample_columns) (search_request [] "_") sample_db
   = (search_envelope
        [ Question.format (Question.Build 1 "Whose autobiography is entitled..." "Maya Angelou" 4 2);
          Question.format (Question.Build 2 "What movie earned Tom Hanks..." "Apollo 13" 5 4);
          Question.format (Question.Build 3 "What is the heaviest organ?" "The liver" 1 4) ]
        3,
      sample_db)
   /\ matching_questions "_" sample_db = [])
  /\ (POST_questions (cols := sample_columns) (search_request [("page", "2")] "organ") sample_db
      = (search_envelope [] 1, sample_db)
      /\ matching_questions "organ" sample_db
         = [ Question.Build 3 "What is the heaviest organ?" "The liver" 1 4 ]).
Proof.
  repeat split.
Qed.

(** C4, amended: for a POST /questions?page=p with p >= 1 (p is 1 when the
    parameter is absent) whose searchTerm is a non-empty string without the
    characters [%], [_] and backslash, the questions returned are page p of
    the formatted questions whose text contains the term, anywhere and up to
    case, in the order of their identifiers; total_questions is the number
    of all such questions; a term that no question contains is answered with
    success, no questions and a total of 0, with status 200.  Nothing is
    stored. *)
Theorem C4_search_plain_term {cols : Columns} :
  forall (request : Request) (db : Db) (body : dict) (term : string) (p : Z),
    json request = VDict body ->
    lookup body (KStr "searchTerm") = Some (VStr term) ->
    term <> "" ->
    plain_term term = true ->
    page_of request = p ->
    1 <= p ->
    let found := matching_questions term db in
    (args_lookup (args request) "page" = None -> p = 1)
    /\ (forall q, In q found <->
                  In q (questions_table db)
                  /\ contains_ci (list_ascii_of_string term)
                                 (list_ascii_of_string (Question.question q)))
    /\ POST_questions request db
       = (search_envelope (page_spec (map Question.format found) p)
                          (List.length found), db)
    /\ (found = [] -> POST_questions request db = (search_envelope [] 0, db)).
Proof.
  intros request db body term p Hjson Hterm Hne Hplain Hp Hp1 found.
  assert (E : POST_questions request db
              = (search_envelope (page_spec (map Question.format found) p)
                                 (List.length found), db)).
  { unfold POST_questions, create_question. rewrite Hjson.
    cbv zeta. unfold Py.get. rewrite Hterm.
    assert (Htruthy : truthy (VStr term) = true).
    { cbn. apply negb_true_iff. now apply String.eqb_neq. }
    rewrite Htruthy. unfold create_question_search. cbn [Py.str].
    rewrite (filter_ilike_plain term _ Hplain). cbn [Py.bind].
    fold (matching_questions term db). fold found.
    rewrite paginate_questions_page by lia. rewrite Hp. reflexivity. }
  split.
  { intros Habsent. rewrite <- Hp. now apply page_of_default. }
  split; [apply matching_questions_In |].
  split; [exact E |].
  intros Hnone. rewrite E, Hnone. cbn [map List.length].
  now rewrite page_spec_nil.
Qed.

Lemma C4_witness :
  POST_questions (cols := sample_columns) (search_request [] "ORGAN") sample_db
  = (search_envelope
       [ Question.format (Question.Build 3 "What is the heaviest organ?" "The liver" 1 4) ]
       1,
     sample_db).
Proof.
  apply (C4_search_plain_term (cols := sample_columns) (search_request [] "ORGAN") sample_db _ "ORGAN" 1
           eq_refl eq_refl ltac:(discriminate) eq_refl eq_refl ltac:(lia)).
Defined.

(* ================================================================= *)
(** ** The category mapping *)

Lemma key_eqb_eq (a b : key) : key_eqb a b = true <-> a = b.
Proof.
  destruct a, b; cbn; try (split; [discriminate | congruence]).
  - rewrite Z.eqb_eq. split; congruence.
  - rewrite String.eqb_eq. split; congruence.
Qed.

Lemma key_eqb_refl (a : key) : key_eqb a a = true.
Proof. now apply key_eqb_eq. Qed.

Lemma lookup_setitem_same (d : dict) (k : key) (v : value) :
  lookup (setitem d k v) k = Some v.
Proof.
  induction d as [| [k' v'] d IH]; cbn.
  - now rewrite key_eqb_refl.
  - destruct (key_eqb k' k) eqn:E; cbn; now rewrite E.
Qed.

Lemma lookup_setitem_other (d : dict) (k k' : key) (v : value) :
  k <> k' -> lookup (setitem d k v) k' = lookup d k'.
Proof.
  intros Hne. induction d as [| [k0 v0] d IH]; cbn.
  - destruct (key_eqb k k') eqn:E; [| reflexivity].
    apply key_eqb_eq in E. contradiction.
  - destruct (key_eqb k0 k) eqn:E; cbn.
    + apply key_eqb_eq in E. subst k0.
      destruct (key_eqb k k') eqn:E'; [| reflexivity].
      apply key_eqb_eq in E'. contradiction.
    + now rewrite IH.
Qed.

Lemma setitem_keys (d : dict) (k : key) (v : value) :
  map fst (setitem d k v) =
  if existsb (fun k' => key_eqb k' k) (map fst d) then map fst d
  else map fst d ++ [k].
Proof.
  induction d as [| [k0 v0] d IH]; [reflexivity |].
  cbn. destruct (key_eqb k0 k); cbn; [reflexivity |].
  rewrite IH. now destruct (existsb _ (map fst d)).
Qed.

Lemma setitem_keys_NoDup (d : dict) (k : key) (v : value) :
  NoDup (map fst d) -> NoDup (map fst (setitem d k v)).
Proof.
  intros H. rewrite setitem_keys.
  destruct (existsb _ (map fst d)) eqn:E; [exact H |].
  apply NoDup_app; [exact H | repeat constructor; intros [] | ].
  intros x Hx [Hk | []]. subst x.
  assert (Hc : existsb (fun k' => key_eqb k' k) (map fst d) = true).
  { apply existsb_exists. exists k. split; [exact Hx | apply key_eqb_refl]. }
  congruence.
Qed.

Lemma setitem_not_nil (d : dict) (k : key) (v : value) : setitem d k v <> [].
Proof.
  destruct d as [| [k0 v0] d]; cbn; [discriminate |].
  destruct (key_eqb k0 k); discriminate.
Qed.

Lemma find_snoc {A : Type} (f : A -> bool) (l : list A) (x : A) :
  find f (l ++ [x]) =
  match find f l with
  | Some y => Some y
  | None => if f x then Some x else None
  end.
Proof.
  induction l as [| y l IH]; cbn; [reflexivity |].
  now destruct (f y).
Qed.

Lemma categories_from_lookup (rows : list Category.t) (acc : dict) (i : Z) :
  lookup (categories_from rows acc) (KInt i) =
  match find (fun c => Category.id c =? i) (rev rows) with
  | Some c => Some (VStr (Category.type c))
  | None => lookup acc (KInt i)
  end.
Proof.
  revert acc. induction rows as [| c rows IH]; intros acc; [reflexivity |].
  cbn [categories_from fold_left rev]. fold (categories_from rows).
  rewrite IH, find_snoc.
  destruct (find _ (rev rows)); [reflexivity |].
  destruct (Z.eqb_spec (Category.id c) i) as [-> | Hne].
  - apply lookup_setitem_same.
  - apply lookup_setitem_other. congruence.
Qed.

Lemma categories_from_keys_NoDup (rows : list Category.t) (acc : dict) :
  NoDup (map fst acc) -> NoDup (map fst (categories_from rows acc)).
Proof.
  revert acc. induction rows as [| c rows IH]; intros acc H; [exact H |].
  cbn [categories_from fold_left]. fold (categories_from rows).
  now apply IH, setitem_keys_NoDup.
Qed.

Lemma categories_from_nil (rows : list Category.t) (acc : dict) :
  categories_from rows acc = [] -> rows = [] /\ acc = [].
Proof.
  revert acc. induction rows as [| c rows IH]; intros acc H; [now split |].
  cbn [categories_from fold_left] in H. fold (categories_from rows) in H.
  apply IH in H as [_ H]. now apply setitem_not_nil in H.
Qed.

Lemma find_unique {A : Type} (key : A -> Z) (l : list A) (x : A) :
  NoDup (map key l) -> In x l ->
  find (fun y => key y =? key x) l = Some x.
Proof.
  induction l as [| y l IH]; intros Hnd Hin; [destruct Hin |].
  cbn in Hnd. apply NoDup_cons_iff in Hnd as [Hy Hnd]. cbn.
  destruct Hin as [-> | Hin]; [now rewrite Z.eqb_refl |].
  destruct (Z.eqb_spec (key y) (key x)) as [E | _]; [| now apply IH].
  exfalso. apply Hy. rewrite E. now apply in_map.
Qed.

(** X1 ([get_categories]): the mapping binds an identifier to the label of
    the last category row that has it, and to nothing when no row has it;
    no key occurs twice; and when the rows have distinct identifiers every
    row is found under its identifier with its own label. *)
Theorem X1_get_categories_lookup :
  forall (db : Db) (i : Z),
    lookup (get_categories db) (KInt i) =
      option_map (fun c => VStr (Category.type c)) (last_category i db)
    /\ (lookup (get_categories db) (KInt i) = None <->
        forall c, In c (categories_table db) -> Category.id c <> i)
    /\ NoDup (map fst (get_categories db))
    /\ (NoDup (map Category.id (categories_table db)) ->
        forall c, In c (categories_table db) ->
                  lookup (get_categories db) (KInt (Category.id c))
                  = Some (VStr (Category.type c))).
Proof.
  intros db i.
  assert (E : forall j,
             lookup (get_categories db) (KInt j) =
             option_map (fun c => VStr (Category.type c)) (last_category j db)).
  { intros j. unfold get_categories, Category_query_all, last_category.
    fold (categories_from (categories_table db) []).
    rewrite categories_from_lookup. now destruct (find _ _). }
  split; [apply E |].
  split.
  { rewrite E. unfold last_category. split.
    - intros H c Hc Hid.
      destruct (find _ (rev (categories_table db))) eqn:F; [discriminate H |].
      apply in_rev in Hc. apply (find_none _ _ F) in Hc.
      apply Z.eqb_neq in Hc. contradiction.
    - intros H. destruct (find _ (rev (categories_table db))) eqn:F; [| reflexivity].
      apply find_some in F as [Hin Hid]. apply in_rev in Hin.
      apply Z.eqb_eq in Hid. now apply H in Hin. }
  split.
  { unfold get_categories, Category_query_all.
    fold (categories_from (categories_table db) []).
    apply categories_from_keys_NoDup. constructor. }
  intros Hnd c Hc. rewrite E. unfold last_category.
  rewrite (find_unique Category.id); [reflexivity | | now apply in_rev in Hc].
  rewrite map_rev. now apply NoDup_rev.
Qed.

(** X2 ([retrieve_all_categories]): GET /categories answers with the 404
    envelope exactly when the categories table is empty, and otherwise with
    success and the mapping. *)
Theorem X2_retrieve_all_categories :
  forall (db : Db),
    (GET_categories db = not_found <-> categories_table db = [])
    /\ (categories_table db <> [] ->
        GET_categories db =
        JsonResponse
          (VDict [ (KStr "success", VBool true);
                   (KStr "categories", VDict (get_categories db)) ]) 200).
Proof.
  intros db. unfold GET_categories, retrieve_all_categories.
  destruct (get_categories db) as [| kv d] eqn:E; cbn.
  - unfold get_categories, Category_query_all in E.
    apply (categories_from_nil (categories_table db) []) in E as [E _].
    split; [tauto | contradiction].
  - assert (Hne : categories_table db <> []).
    { intros H. unfold get_categories, Category_query_all in E.
      rewrite H in E. discriminate E. }
    split; [split; [discriminate | contradiction] | reflexivity].
Qed.

(* ================================================================= *)
(** ** Walking the pages *)

Lemma adjust_index_bounds (n i : Z) : 0 <= n -> 0 <= adjust_index n i <= n.
Proof.
  intros Hn. unfold adjust_index. destruct (Z.ltb_spec i 0); lia.
Qed.

Lemma slice_length {A : Type} (l : list A) (a b : Z) :
  List.length (Py.slice l a b) =
  Z.to_nat (adjust_index (Z.of_nat (List.length l)) b
            - adjust_index (Z.of_nat (List.length l)) a).
Proof.
  unfold Py.slice. rewrite length_firstn, length_skipn.
  pose proof (adjust_index_bounds (Z.of_nat (List.length l)) a ltac:(lia)).
  pose proof (adjust_index_bounds (Z.of_nat (List.length l)) b ltac:(lia)).
  lia.
Qed.

Lemma firstn_add {A : Type} (a b : nat) (l : list A) :
  firstn (a + b) l = firstn a l ++ firstn b (skipn a l).
Proof.
  revert l. induction a as [| a IH]; intros l; [reflexivity |].
  destruct l as [| x l]; cbn.
  - now rewrite firstn_nil.
  - now rewrite IH.
Qed.

Lemma page_spec_items {A : Type} (l : list A) (p : Z) :
  1 <= p ->
  page_spec l p = firstn 10 (skipn (Z.to_nat ((p - 1) * 10)) l).
Proof.
  intros Hp. unfold page_spec, slice_spec. f_equal. lia.
Qed.

(** X3 ([paginate_questions]): on a page p >= 1 the item at offset j < 10
    is the item at position (p-1)*10 + j of the formatted selection, and
    there is nothing at an offset of 10 or more; so the item at position i
    of the selection is found on page i/10 + 1, at offset i mod 10. *)
Theorem X3_page_items :
  forall (request : Request) (selection : list Question.t),
    1 <= page_of request ->
    let items := map Question.format selection in
    let page := paginate_questions request selection in
    (forall j : nat,
        nth_error page j =
        if Nat.ltb j 10
        then nth_error items (Z.to_nat ((page_of request - 1) * 10) + j)
        else None)
    /\ (forall i : nat,
           page_of request = Z.of_nat (Nat.div i 10) + 1 ->
           nth_error page (Nat.modulo i 10) = nth_error items i).
Proof.
  intros request selection Hp items page.
  assert (E : forall j : nat,
             nth_error page j =
             if Nat.ltb j 10
             then nth_error items (Z.to_nat ((page_of request - 1) * 10) + j)
             else None).
  { intros j. unfold page. rewrite paginate_questions_page by assumption.
    rewrite page_spec_items by assumption.
    rewrite nth_error_firstn. fold items.
    destruct (Nat.ltb j 10); [apply nth_error_skipn | reflexivity]. }
  split; [exact E |].
  intros i Hi. rewrite E.
  assert (Hlt : (Nat.modulo i 10 < 10)%nat) by (apply Nat.mod_upper_bound; lia).
  apply Nat.ltb_lt in Hlt. rewrite Hlt. f_equal.
  rewrite Hi. pose proof (Nat.div_mod_eq i 10). lia.
Qed.

Lemma X3_witness :
  1 <= page_of (page_request "2")
  /\ nth_error (paginate_questions (page_request "2") (questions_table crowded_db)) 1
     = Some (Question.format (Question.Build 12 "And this one?" "Too" 2 1)).
Proof.
  split; [cbv; discriminate |].
  destruct (X3_page_items (page_request "2") (questions_table crowded_db)
              ltac:(cbv; discriminate)) as [_ H].
  exact (H 11%nat eq_refl).
Defined.

Lemma pages_from (k : nat) (requests : list Request) (selection : list Question.t) :
  map page_of requests = map Z.of_nat (seq (S k) (List.length requests)) ->
  List.concat (map (fun r => paginate_questions r selection) requests) =
  firstn (10 * List.length requests)
         (skipn (10 * k) (map Question.format selection)).
Proof.
  revert k. induction requests as [| r requests IH]; intros k H; [reflexivity |].
  cbn [List.length seq map] in H. injection H as Hr H.
  cbn [map List.concat]. rewrite (IH (S k) H).
  rewrite paginate_questions_page by lia.
  rewrite page_spec_items by lia.
  replace (Z.to_nat ((page_of r - 1) * 10)) with (10 * k)%nat by lia.
  replace (10 * List.length (r :: requests))%nat
    with (10 + 10 * List.length requests)%nat by (cbn [List.length]; lia).
  rewrite firstn_add, skipn_skipn. do 3 f_equal. lia.
Qed.

(** X4 ([paginate_questions]): asking for the pages 1, 2, ..., n in turn
    and putting the answers one after the other gives the first 10*n items
    of the formatted selection, each once and in order; with 10*n at least
    the size of the selection, that is the whole selection. *)
Theorem X4_pages_cover :
  forall (requests : list Request) (selection : list Question.t),
    map page_of requests = map Z.of_nat (seq 1 (List.length requests)) ->
    let items := map Question.format selection in
    let pages := map (fun r => paginate_questions r selection) requests in
    List.concat pages = firstn (10 * List.length requests) items
    /\ ((List.length selection <= 10 * List.length requests)%nat ->
        List.concat pages = items).
Proof.
  intros requests selection H items pages.
  assert (E : List.concat pages = firstn (10 * List.length requests) items).
  { unfold pages. rewrite (pages_from 0 requests selection H). reflexivity. }
  split; [exact E |].
  intros Hlen. rewrite E. apply firstn_all2.
  unfold items. now rewrite length_map.
Qed.

Lemma X4_witness :
  List.concat (map (fun r => paginate_questions r (questions_table crowded_db))
              [page_request "1"; page_request "2"])
  = map Question.format (questions_table crowded_db).
Proof.
  apply (X4_pages_cover [page_request "1"; page_request "2"]
           (questions_table crowded_db) eq_refl).
  cbv. repeat constructor.
Defined.

Lemma GET_questions_status_by_page (request : Request) (db : Db) :
  let p := page_of request in
  let n := Z.of_nat (List.length (questions_table db)) in
  (GET_questions request db = not_found <->
   (1 <= p /\ n <= (p - 1) * 10) \/ p = 0 \/ (p < 0 /\ n <= - 10 * p))
  /\ (GET_questions request db = not_found
      \/ status_of (GET_questions request db) = 200)
  /\ (questions_table db = [] -> GET_questions request db = not_found).
Proof.
  intros p n.
  assert (L : List.length (paginate_questions request (Question_query_all db))
              = Z.to_nat (adjust_index n ((p - 1) * 10 + 10)
                          - adjust_index n ((p - 1) * 10))).
  { rewrite paginate_questions_slice, slice_length, length_map. reflexivity. }
  assert (Hiff : GET_questions request db = not_found <->
                 (1 <= p /\ n <= (p - 1) * 10) \/ p = 0 \/ (p < 0 /\ n <= - 10 * p)).
  { destruct (GET_questions_cases request db) as [[Hnil Hr] | [Hne Hr]]; rewrite Hr.
    - rewrite Hnil in L. cbn [List.length] in L.
      split; [intros _ | reflexivity].
      unfold adjust_index in L.
      destruct (Z.ltb_spec ((p - 1) * 10 + 10) 0),
               (Z.ltb_spec ((p - 1) * 10) 0); lia.
    - split; [discriminate |]. intros H. exfalso.
      assert (Hpos : (0 < List.length
                            (paginate_questions request (Question_query_all db)))%nat).
      { destruct (paginate_questions request (Question_query_all db));
          [contradiction | cbn; lia]. }
      rewrite L in Hpos. unfold adjust_index in Hpos.
      destruct (Z.ltb_spec ((p - 1) * 10 + 10) 0),
               (Z.ltb_spec ((p - 1) * 10) 0); lia. }
  split; [exact Hiff |].
  split.
  { destruct (GET_questions_cases request db) as [[_ Hr] | [_ Hr]]; rewrite Hr;
      [now left | now right]. }
  intros Hempty. apply Hiff. subst n. rewrite Hempty. cbn [List.length]. lia.
Qed.

(** X5 ([retrieve_all_questions]): with n stored questions and a request
    whose query string asks for page p (page= with the decimal numeral of p,
    or no page and p = 1), GET /questions answers with the 404 envelope
    exactly when p >= 1 and (p-1)*10 >= n, or p = 0, or p < 0 and
    n <= -10*p; in every other case the answer has status 200.  An empty
    table is answered with 404 whatever the page. *)
Theorem X5_retrieve_all_questions_status :
  forall (p : Z) (request : Request) (db : Db),
    asks_for_page request p ->
    let n := Z.of_nat (List.length (questions_table db)) in
    page_of request = p
    /\ (GET_questions request db = not_found <->
        (1 <= p /\ n <= (p - 1) * 10) \/ p = 0 \/ (p < 0 /\ n <= - 10 * p))
    /\ (GET_questions request db = not_found
        \/ status_of (GET_questions request db) = 200)
    /\ (questions_table db = [] -> GET_questions request db = not_found).
Proof.
  intros p request db Hasks n.
  pose proof (asks_for_page_of request p Hasks) as Hp.
  split; [exact Hp |].
  pose proof (GET_questions_status_by_page request db) as H.
  cbv zeta in H. rewrite Hp in H. exact H.
Qed.

Lemma X5_witness :
  (asks_for_page (page_request "-1") (-1)
   /\ GET_questions (page_request "-1") crowded_db <> not_found
   /\ status_of (GET_questions (page_request "-1") crowded_db) = 200)
  /\ (asks_for_page (page_request "0") 0
      /\ GET_questions (page_request "0") crowded_db = not_found)
  /\ (asks_for_page (page_request "-2") (-2)
      /\ GET_questions (page_request "-2") crowded_db = not_found).
Proof.
  assert (H1 : asks_for_page (page_request "-1") (-1)) by (left; reflexivity).
  assert (H0 : asks_for_page (page_request "0") 0) by (left; reflexivity).
  assert (H2 : asks_for_page (page_request "-2") (-2)) by (left; reflexivity).
  destruct (X5_retrieve_all_questions_status (-1) (page_request "-1") crowded_db H1)
    as (_ & Hiff1 & Hor1 & _).
  destruct (X5_retrieve_all_questions_status 0 (page_request "0") crowded_db H0)
    as (_ & Hiff0 & _).
  destruct (X5_retrieve_all_questions_status (-2) (page_request "-2") crowded_db H2)
    as (_ & Hiff2 & _).
  assert (Hne : GET_questions (page_request "-1") crowded_db <> not_found).
  { intros E. apply Hiff1 in E. cbn in E. lia. }
  split; [| split].
  - split; [exact H1 |]. split; [exact Hne |].
    destruct Hor1 as [E | E]; [contradiction | exact E].
  - split; [exact H0 |]. apply Hiff0. right. now left.
  - split; [exact H2 |]. apply Hiff2. right. right. cbn. lia.
Defined.

(* ================================================================= *)
(** ** More on deleting *)

Lemma DELETE_question_cases request id db :
  (List.length (with_id id db) <> 1%nat
   /\ DELETE_question request id db = (unprocessable, db))
  \/ (exists q,
         with_id id db = [q]
         /\ DELETE_question request id db =
            (deleted_envelope id
               (paginate_questions request
                  (order_by_id (Question_query_all (Question_delete q db))))
               (List.length (questions_table (Question_delete q db))),
             Question_delete q db)).
Proof.
  destruct (with_id id db) as [| q1 [| q2 r]] eqn:E.
  - left. split; [discriminate |]. now apply delete_question_missing.
  - right. exists q1. split; [reflexivity |]. now apply delete_question_found.
  - left. split; [discriminate |].
    now apply (delete_question_ambiguous request id db q1 q2 r).
Qed.

(** X6 ([delete_question]): DELETE /questions/<id> answers with status 200
    when exactly one stored question has the identifier and with the 422
    envelope in every other case; it never answers with the 404 envelope,
    and an answer of 422 leaves the tables as they were. *)
Theorem X6_delete_question_status :
  forall (request : Request) (id : Z) (db : Db),
    let response := fst (DELETE_question request id db) in
    let db' := snd (DELETE_question request id db) in
    (status_of response = 200 <-> List.length (with_id id db) = 1%nat)
    /\ (response = unprocessable <-> List.length (with_id id db) <> 1%nat)
    /\ status_of response <> 404
    /\ (response = unprocessable -> db' = db).
Proof.
  intros request id db response db'. unfold response, db'.
  destruct (DELETE_question_cases request id db) as [[Hn E] | (q & Hq & E)];
    rewrite E; cbn [fst snd].
  - repeat split; try (intros H; try discriminate H; tauto); discriminate.
  - rewrite Hq. cbn [List.length].
    repeat split; try reflexivity; try discriminate;
      intros H; try discriminate H; congruence.
Qed.

Lemma map_filter_NoDup {A : Type} (key : A -> Z) (f : A -> bool) (l : list A) :
  NoDup (map key l) -> NoDup (map key (filter f l)).
Proof.
  induction l as [| x l IH]; intros H; [constructor |].
  cbn in H. apply NoDup_cons_iff in H as [Hx H]. cbn.
  destruct (f x); [| now apply IH].
  cbn. constructor; [| now apply IH].
  intros Hin. apply Hx. apply in_map_iff in Hin as (y & Ey & Hy).
  apply filter_In in Hy as [Hy _]. rewrite <- Ey. now apply in_map.
Qed.

Lemma filter_none {A : Type} (f : A -> bool) (l : list A) :
  (forall x, In x l -> f x = false) -> filter f l = [].
Proof.
  induction l as [| x l IH]; intros H; [reflexivity |].
  cbn. rewrite (H x) by now left.
  apply IH. intros y Hy. apply H. now right.
Qed.

Lemma filter_id_unique (l : list Question.t) (q : Question.t) :
  NoDup (map Question.id l) -> In q l ->
  filter (fun x => Question.id x =? Question.id q) l = [q].
Proof.
  induction l as [| y l IH]; intros Hnd Hin; [destruct Hin |].
  cbn in Hnd. apply NoDup_cons_iff in Hnd as [Hy Hnd]. cbn.
  destruct Hin as [-> | Hin].
  - rewrite Z.eqb_refl. f_equal. apply filter_none.
    intros z Hz. apply Z.eqb_neq. intros E. apply Hy.
    rewrite <- E. now apply in_map.
  - destruct (Z.eqb_spec (Question.id y) (Question.id q)) as [E | _].
    + exfalso. apply Hy. rewrite E. now apply in_map.
    + now apply IH.
Qed.

(** X7 ([delete_question]): when no two stored questions share an
    identifier, DELETE /questions/<id> answers with status 200 exactly when
    a stored question has the identifier, and the identifiers are still
    distinct afterwards. *)
Theorem X7_delete_question_unique_ids :
  forall (request : Request) (id : Z) (db : Db),
    ids_unique db ->
    let response := fst (DELETE_question request id db) in
    let db' := snd (DELETE_question request id db) in
    (status_of response = 200 <->
     exists q, In q (questions_table db) /\ Question.id q = id)
    /\ ids_unique db'.
Proof.
  intros request id db Hu response db'. unfold response, db'.
  destruct (DELETE_question_cases request id db) as [[Hn E] | (q & Hq & E)];
    rewrite E; cbn [fst snd].
  - split; [| exact Hu]. split; [discriminate |].
    intros (q & Hin & Hid). exfalso. apply Hn.
    unfold with_id, Question_query_all. rewrite <- Hid.
    now rewrite (filter_id_unique _ q Hu Hin).
  - split.
    + split; [intros _ | reflexivity].
      assert (Hin : In q (with_id id db)) by (rewrite Hq; now left).
      exists q. split; [| now apply (with_id_In id db)].
      unfold with_id in Hin. now apply filter_In in Hin.
    + unfold ids_unique, Question_delete. cbn [questions_table].
      now apply map_filter_NoDup.
Qed.

Lemma X7_witness :
  ids_unique sample_db
  /\ ids_unique (snd (DELETE_question empty_request 2 sample_db)).
Proof.
  assert (H : ids_unique sample_db).
  { unfold ids_unique. cbn. repeat constructor; cbn; intuition discriminate. }
  split; [exact H |].
  apply (X7_delete_question_unique_ids empty_request 2 sample_db H).
Defined.

(** X8 ([delete_question]): a second DELETE of the same identifier, right
    after a first one, is answered with the 422 envelope and leaves the
    tables as the first one left them. *)
Theorem X8_delete_question_twice :
  forall (request request' : Request) (id : Z) (db : Db),
    let db' := snd (DELETE_question request id db) in
    DELETE_question request' id db' = (unprocessable, db').
Proof.
  intros request request' id db db'. unfold db'.
  destruct (DELETE_question_cases request id db) as [[Hn E] | (q & Hq & E)];
    rewrite E; cbn [snd].
  - destruct (DELETE_question_cases request' id db) as [[_ E'] | (q & Hq & _)];
      [exact E' |].
    rewrite Hq in Hn. now contradiction Hn.
  - apply delete_question_missing.
    assert (Hid : Question.id q = id).
    { apply (with_id_In id db). rewrite Hq. now left. }
    unfold with_id, Question_query_all, Question_delete. cbn [questions_table].
    rewrite Hid. apply (filter_negb_none (fun x => Question.id x =? id)).
Qed.

Lemma insert_by_id_ascending (q : Question.t) (l : list Question.t) :
  ascending l -> ascending (insert_by_id q l).
Proof.
  induction l as [| x l IH]; intros H.
  - cbn. split; [intros y [] | exact I].
  - cbn [insert_by_id]. destruct (Z.leb_spec (Question.id q) (Question.id x)) as [Hle | Hgt].
    + split; [| exact H].
      intros y [<- | Hy]; [exact Hle |].
      destruct H as [Hx _]. specialize (Hx y Hy). lia.
    + destruct H as [Hx Hl]. split; [| now apply IH].
      intros y Hy. apply insert_by_id_In in Hy as [-> | Hy]; [lia | now apply Hx].
Qed.

Lemma order_by_id_ascending (l : list Question.t) : ascending (order_by_id l).
Proof.
  induction l as [| x l IH]; [exact I |].
  unfold order_by_id in *. cbn [fold_right]. now apply insert_by_id_ascending.
Qed.

Lemma insert_by_id_Permutation (q : Question.t) (l : list Question.t) :
  Permutation (insert_by_id q l) (q :: l).
Proof.
  induction l as [| x l IH]; [reflexivity |].
  cbn [insert_by_id]. destruct (Question.id q <=? Question.id x); [reflexivity |].
  rewrite IH. apply perm_swap.
Qed.

Lemma order_by_id_Permutation (l : list Question.t) : Permutation (order_by_id l) l.
Proof.
  induction l as [| x l IH]; [constructor |].
  unfold order_by_id in *. cbn [fold_right].
  rewrite insert_by_id_Permutation. now constructor.
Qed.

(** X9 ([delete_question]): the questions of a successful DELETE are the
    requested page of the remaining rows put in ascending order of their
    identifiers, whatever the order they are stored in: the list that is
    paginated is ascending and a permutation of the table after the
    delete. *)
Theorem X9_delete_question_listing :
  forall (request : Request) (id : Z) (db : Db),
    status_of (fst (DELETE_question request id db)) = 200 ->
    let response := fst (DELETE_question request id db) in
    let db' := snd (DELETE_question request id db) in
    let rows := order_by_id (questions_table db') in
    field response "questions" = Some (VList (paginate_questions request rows))
    /\ ascending rows
    /\ Permutation rows (questions_table db')
    /\ (1 <= page_of request ->
        field response "questions"
        = Some (VList (page_spec (map Question.format rows) (page_of request)))).
Proof.
  intros request id db Hok response db' rows.
  assert (E : field response "questions"
              = Some (VList (paginate_questions request rows))).
  { unfold response, rows, db'. unfold response in Hok.
    destruct (DELETE_question_cases request id db) as [[_ E] | (q & _ & E)];
      rewrite E in *; [discriminate Hok | reflexivity]. }
  split; [exact E |].
  split; [apply order_by_id_ascending |].
  split; [apply order_by_id_Permutation |].
  intros Hp. rewrite E. now rewrite paginate_questions_page.
Qed.

Lemma X9_witness :
  status_of (fst (DELETE_question empty_request 1 sample_db)) = 200
  /\ field (fst (DELETE_question empty_request 1 sample_db)) "questions"
     = Some (VList
               [ Question.format (Question.Build 2 "What movie earned Tom Hanks..." "Apollo 13" 5 4);
                 Question.format (Question.Build 3 "What is the heaviest organ?" "The liver" 1 4) ]).
Proof.
  split; [reflexivity |].
  destruct (X9_delete_question_listing empty_request 1 sample_db eq_refl)
    as (H & _).
  exact H.
Defined.

(* ================================================================= *)
(** ** More on creating and searching *)

(** The create branch: a missing value is refused by the handler; the
    other values go to the persistence layer, which either stores one row or
    raises and leaves the tables as they were. *)
Lemma create_question_insert_cases {cols : Columns} request (q a c d : value) (db : Db) :
  (is_None q || is_None a || is_None c || is_None d = true
   /\ create_question_insert request q a c d db = (abort 422, db))
  \/ (is_None q || is_None a || is_None c || is_None d = false
      /\ ((exists qs ans cat dif,
              store_values q a c d = Ok (qs, ans, cat, dif)
              /\ let row := Question.Build (questions_id_seq db) qs ans cat dif in
                 let db1 := MkDb (questions_table db ++ [row]) (categories_table db)
                                 (questions_id_seq db + 1) in
                 create_question_insert request q a c d db =
                 (Ok (created_envelope (questions_id_seq db)
                        (paginate_questions request (order_by_id (questions_table db1)))
                        (List.length (questions_table db1))),
                  db1))
          \/ (exists e,
                 store_values q a c d = Raise e
                 /\ create_question_insert request q a c d db = (Raise e, db)))).
Proof.
  unfold create_question_insert, Question_insert.
  destruct (is_None q || is_None a || is_None c || is_None d);
    [left; now split | right; split; [reflexivity |]].
  destruct (store_values q a c d) as [[[[qs ans] cat] dif] | e].
  - left. now exists qs, ans, cat, dif.
  - right. now exists e.
Qed.

Lemma filter_ilike_tokens (pattern : string) (p : list Sql.like_token)
      (l : list Question.t) :
  Sql.tokens (list_ascii_of_string pattern) = Some p ->
  filter_ilike pattern l =
  Ok (filter (fun q => Sql.matches p (list_ascii_of_string (Question.question q))) l).
Proof.
  intros H. induction l as [| q l IH]; [reflexivity |].
  cbn [filter_ilike filter]. unfold Sql.ilike at 1. rewrite H, IH. reflexivity.
Qed.

(** A pattern that ends in [%] is never an unfinished escape. *)
Lemma tokens_closed (l : list ascii) :
  (exists p, Sql.tokens (l ++ ["%"%char]) = Some p)
  /\ (forall c, exists p, Sql.tokens (c :: l ++ ["%"%char]) = Some p).
Proof.
  induction l as [| a l [IH1 IH2]].
  - split; [now eexists |].
    intros c. cbn [app Sql.tokens].
    destruct (Ascii.eqb c backslash); [now eexists |].
    destruct (Ascii.eqb c "%"); [now eexists |].
    destruct (Ascii.eqb c "_"); now eexists.
  - split; [apply IH2 |].
    intros c. destruct IH1 as [p1 E1]. destruct (IH2 a) as [p2 E2].
    change ((a :: l) ++ ["%"%char]) with (a :: l ++ ["%"%char]).
    cbn [Sql.tokens] in E2 |- *.
    destruct (Ascii.eqb c backslash).
    + rewrite E1. now eexists.
    + destruct (Ascii.eqb c "%"); [rewrite E2; now eexists |].
      destruct (Ascii.eqb c "_"); rewrite E2; now eexists.
Qed.

Lemma search_pattern_parses (search : value) :
  exists p, Sql.tokens (list_ascii_of_string (search_pattern search)) = Some p.
Proof.
  unfold search_pattern.
  change ("%" ++ Py.str search ++ "%")%string
    with (String "%" (Py.str search ++ "%")%string).
  cbn [list_ascii_of_string]. rewrite list_ascii_of_string_app.
  apply (tokens_closed (list_ascii_of_string (Py.str search))).
Qed.

Lemma filter_ascending (f : Question.t -> bool) (l : list Question.t) :
  ascending l -> ascending (filter f l).
Proof.
  induction l as [| x l IH]; intros H; [exact I |].
  destruct H as [Hx Hl]. cbn. destruct (f x); [| now apply IH].
  split; [| now apply IH].
  intros y Hy. apply filter_In in Hy as [Hy _]. now apply Hx.
Qed.

Lemma filter_length_le {A : Type} (f : A -> bool) (l : list A) :
  (List.length (filter f l) <= List.length l)%nat.
Proof.
  induction l as [| x l IH]; [reflexivity |].
  cbn. destruct (f x); cbn; lia.
Qed.

(** The search branch, for a truthy search term. *)
Lemma POST_questions_search {cols : Columns} request db body :
  json request = VDict body ->
  truthy (Py.get body "searchTerm" VNone) = true ->
  exists p,
    Sql.tokens (list_ascii_of_string
                  (search_pattern (Py.get body "searchTerm" VNone))) = Some p
    /\ POST_questions request db =
       (search_envelope (paginate_questions request (rows_matching p db))
                        (List.length (rows_matching p db)), db).
Proof.
  intros Hjson Htruthy.
  destruct (search_pattern_parses (Py.get body "searchTerm" VNone)) as [p Hp].
  exists p. split; [exact Hp |].
  unfold POST_questions, create_question. rewrite Hjson. cbv zeta.
  rewrite Htruthy. unfold create_question_search.
  fold (search_pattern (Py.get body "searchTerm" VNone)).
  rewrite (filter_ilike_tokens _ p _ Hp). reflexivity.
Qed.

Lemma POST_questions_not_dict {cols : Columns} request db :
  is_dict (json request) = false ->
  POST_questions request db = (ErrorPage 500, db).
Proof.
  intros H. unfold POST_questions, create_question.
  destruct (json request); try reflexivity. discriminate H.
Qed.

(** The create branch as the client sees it. *)
Lemma POST_questions_create {cols : Columns} request db body :
  json request = VDict body ->
  truthy (Py.get body "searchTerm" VNone) = false ->
  (exists qs ans cat dif,
      is_None (Py.get body "question" VNone) || is_None (Py.get body "answer" VNone)
      || is_None (Py.get body "category" VNone)
      || is_None (Py.get body "difficulty" VNone) = false
      /\ store_values (Py.get body "question" VNone) (Py.get body "answer" VNone)
                      (Py.get body "category" VNone) (Py.get body "difficulty" VNone)
         = Ok (qs, ans, cat, dif)
      /\ let row := Question.Build (questions_id_seq db) qs ans cat dif in
         let db1 := MkDb (questions_table db ++ [row]) (categories_table db)
                         (questions_id_seq db + 1) in
         POST_questions request db =
         (created_envelope (questions_id_seq db)
            (paginate_questions request (order_by_id (questions_table db1)))
            (List.length (questions_table db1)),
          db1))
  \/ POST_questions request db = (unprocessable, db).
Proof.
  intros Hjson Hs. unfold POST_questions.
  rewrite (create_question_no_search request db body Hjson Hs).
  destruct (create_question_insert_cases request
              (Py.get body "question" VNone) (Py.get body "answer" VNone)
              (Py.get body "category" VNone) (Py.get body "difficulty" VNone) db)
    as [[_ E] | [Hnone [(qs & ans & cat & dif & Hst & E) | (e & _ & E)]]].
  - right. rewrite E. reflexivity.
  - left. exists qs, ans, cat, dif. split; [exact Hnone |]. split; [exact Hst |].
    cbv zeta in E |- *. rewrite E. reflexivity.
  - right. rewrite E. reflexivity.
Qed.

(** X10 ([create_question]): POST /questions answers with a 500 exactly when
    the body is not a JSON object; on an object it answers with status 200
    or with the 422 envelope and nothing else (never 400 or 404); an answer
    other than 200 leaves the tables as they were, and so does every
    search. *)
Theorem X10_create_question_status {cols : Columns} :
  forall (request : Request) (db : Db),
    let response := fst (POST_questions request db) in
    let db' := snd (POST_questions request db) in
    (response = ErrorPage 500 <-> is_dict (json request) = false)
    /\ (is_dict (json request) = true ->
        status_of response = 200 \/ response = unprocessable)
    /\ (status_of response <> 200 -> db' = db)
    /\ (forall body,
           json request = VDict body ->
           truthy (Py.get body "searchTerm" VNone) = true ->
           db' = db /\ status_of response = 200).
Proof.
  intros request db response db'. unfold response, db'.
  destruct (is_dict (json request)) eqn:D.
  2:{ rewrite (POST_questions_not_dict request db D). cbn [fst snd].
      split; [tauto |]. split; [discriminate |]. split; [reflexivity |].
      intros body Hb. rewrite Hb in D. discriminate D. }
  destruct (json request) as [| | | | | body] eqn:Hjson; try discriminate D.
  destruct (truthy (Py.get body "searchTerm" VNone)) eqn:Hs.
  - destruct (POST_questions_search request db body Hjson Hs) as (p & _ & E).
    rewrite E. cbn [fst snd].
    split; [split; discriminate |].
    split; [intros _; now left |].
    split; [reflexivity |].
    intros b _ _. now split.
  - destruct (POST_questions_create request db body Hjson Hs)
      as [(qs & ans & cat & dif & _ & _ & E) | E];
      cbv zeta in E; rewrite E; cbn [fst snd].
    + split; [split; discriminate |].
      split; [intros _; now left |].
      split; [intros H; now contradiction H |].
      intros b [= <-] Ht. congruence.
    + split; [split; discriminate |].
      split; [intros _; now right |].
      split; [reflexivity |].
      intros b [= <-] Ht. congruence.
Qed.

(** X11 ([create_question], search): a search with any truthy search term
    is answered with status 200, never with an error: the pattern built
    from the term is always a well-formed one.  The questions are the
    requested page of the rows the pattern matches, in ascending order of
    their identifiers; they are stored rows, and total_questions, their
    number, is at most the number of stored questions. *)
Theorem X11_search_always_answers {cols : Columns} :
  forall (request : Request) (db : Db) (body : dict),
    json request = VDict body ->
    truthy (Py.get body "searchTerm" VNone) = true ->
    exists p,
      Sql.tokens (list_ascii_of_string
                    (search_pattern (Py.get body "searchTerm" VNone))) = Some p
      /\ POST_questions request db =
         (search_envelope (paginate_questions request (rows_matching p db))
                          (List.length (rows_matching p db)), db)
      /\ ascending (rows_matching p db)
      /\ incl (rows_matching p db) (questions_table db)
      /\ (List.length (rows_matching p db) <= List.length (questions_table db))%nat.
Proof.
  intros request db body Hjson Hs.
  destruct (POST_questions_search request db body Hjson Hs) as (p & Hp & E).
  exists p. split; [exact Hp |]. split; [exact E |].
  unfold rows_matching, Question_query_all.
  split; [apply filter_ascending, order_by_id_ascending |].
  split.
  - intros q Hq. apply filter_In in Hq as [Hq _].
    exact (proj1 (order_by_id_In q _) Hq).
  - etransitivity; [apply filter_length_le |].
    now rewrite (Permutation_length (order_by_id_Permutation _)).
Qed.

Lemma X11_witness :
  exists p,
    Sql.tokens (list_ascii_of_string (search_pattern (VStr "a\"))) = Some p
    /\ POST_questions (cols := sample_columns) (search_request [] "a\") sample_db =
       (search_envelope
          (paginate_questions (search_request [] "a\") (rows_matching p sample_db))
          (List.length (rows_matching p sample_db)), sample_db).
Proof.
  destruct (X11_search_always_answers (cols := sample_columns) (search_request [] "a\") sample_db _
              eq_refl eq_refl) as (p & Hp & E & _).
  exists p. split; [exact Hp | exact E].
Defined.

(** *** The case of the search term *)

Lemma lower_idem (c : ascii) : Sql.lower (Sql.lower c) = Sql.lower c.
Proof. destruct c as [[] [] [] [] [] [] [] []]; reflexivity. Qed.

Lemma lower_eqb_percent (c : ascii) :
  Ascii.eqb (Sql.lower c) "%" = Ascii.eqb c "%".
Proof. destruct c as [[] [] [] [] [] [] [] []]; reflexivity. Qed.

Lemma lower_eqb_underscore (c : ascii) :
  Ascii.eqb (Sql.lower c) "_" = Ascii.eqb c "_".
Proof. destruct c as [[] [] [] [] [] [] [] []]; reflexivity. Qed.

Lemma lower_eqb_backslash (c : ascii) :
  Ascii.eqb (Sql.lower c) backslash = Ascii.eqb c backslash.
Proof. destruct c as [[] [] [] [] [] [] [] []]; reflexivity. Qed.

(** Patterns that are equal up to case have the same tokens up to case. *)
Lemma tokens_lower (n : nat) :
  forall l l' : list ascii,
    (List.length l <= n)%nat ->
    map Sql.lower l = map Sql.lower l' ->
    option_map (map lower_token) (Sql.tokens l)
    = option_map (map lower_token) (Sql.tokens l').
Proof.
  induction n as [| n IH]; intros l l' Hn Hl.
  - destruct l; [| cbn in Hn; lia]. destruct l'; [reflexivity | discriminate Hl].
  - destruct l as [| c l]; destruct l' as [| c' l']; try discriminate Hl;
      [reflexivity |].
    cbn [map] in Hl. injection Hl as Hc Hl. cbn [List.length] in Hn.
    assert (Rec : forall m m' : list ascii,
               (List.length m <= n)%nat ->
               map Sql.lower m = map Sql.lower m' ->
               forall t t',
                 lower_token t = lower_token t' ->
                 option_map (map lower_token) (option_map (cons t) (Sql.tokens m))
                 = option_map (map lower_token) (option_map (cons t') (Sql.tokens m'))).
    { intros m m' Hm Hmm t t' Ht. specialize (IH m m' Hm Hmm).
      destruct (Sql.tokens m), (Sql.tokens m'); cbn in IH |- *;
        try discriminate IH; [| reflexivity].
      injection IH as IH. now rewrite Ht, IH. }
    cbn [Sql.tokens].
    rewrite <- (lower_eqb_backslash c), <- (lower_eqb_backslash c'),
      <- (lower_eqb_percent c), <- (lower_eqb_percent c'),
      <- (lower_eqb_underscore c), <- (lower_eqb_underscore c'), <- Hc.
    destruct (Ascii.eqb (Sql.lower c) backslash).
    + destruct l as [| e l]; destruct l' as [| e' l']; try discriminate Hl;
        [reflexivity |].
      cbn [map] in Hl. injection Hl as He Hl. cbn [List.length] in Hn.
      apply Rec; [lia | exact Hl | cbn; now rewrite He].
    + destruct (Ascii.eqb (Sql.lower c) "%"); [apply Rec; [lia | exact Hl | reflexivity] |].
      destruct (Ascii.eqb (Sql.lower c) "_"); [apply Rec; [lia | exact Hl | reflexivity] |].
      apply Rec; [lia | exact Hl | cbn; now rewrite Hc].
Qed.

Lemma matches_lower_token (p : list Sql.like_token) (t : list ascii) :
  Sql.matches (map lower_token p) t = Sql.matches p t.
Proof.
  revert t. induction p as [| tok p IH]; intros t; [reflexivity |].
  destruct tok as [| | c]; cbn [map lower_token].
  - induction t as [| x t IHt];
      rewrite (matches_AnySeq_unfold (map lower_token p)), (matches_AnySeq_unfold p), IH.
    + reflexivity.
    + now rewrite IHt.
  - destruct t; cbn; [reflexivity | apply IH].
  - destruct t as [| x t]; cbn; [reflexivity |].
    unfold Sql.ci_eqb. now rewrite lower_idem, IH.
Qed.

Lemma matches_up_to_case (p p' : list Sql.like_token) (t : list ascii) :
  map lower_token p = map lower_token p' ->
  Sql.matches p t = Sql.matches p' t.
Proof.
  intros H. now rewrite <- (matches_lower_token p), <- (matches_lower_token p'), H.
Qed.

Lemma paginate_questions_args request request' selection :
  args request = args request' ->
  paginate_questions request selection = paginate_questions request' selection.
Proof.
  intros H. unfold paginate_questions. now rewrite H.
Qed.

(** X12 ([create_question], search): the answer to a search does not
    depend on the case of the search term: two requests with the same query
    string whose string search terms, wildcards included, are equal up to
    the case of their letters get the same answer. *)
Theorem X12_search_term_case {cols : Columns} :
  forall (request request' : Request) (db : Db) (body body' : dict)
         (term term' : string),
    json request = VDict body ->
    json request' = VDict body' ->
    args request = args request' ->
    lookup body (KStr "searchTerm") = Some (VStr term) ->
    lookup body' (KStr "searchTerm") = Some (VStr term') ->
    term <> "" ->
    map Sql.lower (list_ascii_of_string term)
    = map Sql.lower (list_ascii_of_string term') ->
    POST_questions request db = POST_questions request' db.
Proof.
  intros request request' db body body' term term' Hj Hj' Hargs Ht Ht' Hne Hcase.
  assert (Hg : Py.get body "searchTerm" VNone = VStr term)
    by (unfold Py.get; now rewrite Ht).
  assert (Hg' : Py.get body' "searchTerm" VNone = VStr term')
    by (unfold Py.get; now rewrite Ht').
  assert (Hne' : term' <> "").
  { intros ->. destruct term; [now apply Hne | discriminate Hcase]. }
  assert (Hs : truthy (Py.get body "searchTerm" VNone) = true).
  { rewrite Hg. cbn. apply negb_true_iff. now apply String.eqb_neq. }
  assert (Hs' : truthy (Py.get body' "searchTerm" VNone) = true).
  { rewrite Hg'. cbn. apply negb_true_iff. now apply String.eqb_neq. }
  destruct (POST_questions_search request db body Hj Hs) as (p & Hp & E).
  destruct (POST_questions_search request' db body' Hj' Hs') as (p' & Hp' & E').
  rewrite E, E'.
  assert (Hpp : map lower_token p = map lower_token p').
  { rewrite Hg in Hp. rewrite Hg' in Hp'.
    unfold search_pattern in Hp, Hp'. cbn [Py.str] in Hp, Hp'.
    pose proof (tokens_lower
                  (List.length (list_ascii_of_string ("%" ++ term ++ "%")))
                  (list_ascii_of_string ("%" ++ term ++ "%"))
                  (list_ascii_of_string ("%" ++ term' ++ "%"))
                  (Nat.le_refl _)) as T.
    rewrite Hp, Hp' in T. cbn [option_map] in T.
    assert (Hmap : map Sql.lower (list_ascii_of_string ("%" ++ term ++ "%"))
                   = map Sql.lower (list_ascii_of_string ("%" ++ term' ++ "%"))).
    { rewrite !list_ascii_of_string_app, !map_app. now rewrite Hcase. }
    specialize (T Hmap). now injection T. }
  assert (Hrows : rows_matching p db = rows_matching p' db).
  { unfold rows_matching. apply filter_ext. intros q.
    now apply matches_up_to_case. }
  rewrite Hrows. now rewrite (paginate_questions_args request request' _ Hargs).
Qed.

Lemma X12_witness :
  POST_questions (cols := sample_columns) (search_request [] "An_organ%") sample_db
  = POST_questions (cols := sample_columns) (search_request [] "aN_ORGAN%") sample_db.
Proof.
  apply (X12_search_term_case (cols := sample_columns)
           (search_request [] "An_organ%") (search_request [] "aN_ORGAN%")
           sample_db _ _ "An_organ%" "aN_ORGAN%"
           eq_refl eq_refl eq_refl eq_refl eq_refl ltac:(discriminate) eq_refl).
Defined.

(* ================================================================= *)
(** *** What a creation stores *)

Lemma filter_all {A : Type} (f : A -> bool) (l : list A) :
  (forall x, In x l -> f x = true) -> filter f l = l.
Proof.
  induction l as [| x l IH]; intros H; [reflexivity |].
  cbn. rewrite (H x) by now left.
  f_equal. apply IH. intros y Hy. apply H. now right.
Qed.

(** X13 ([create_question], creation): on a body without a search term, a
    POST /questions that is answered with status 200 has stored exactly one
    row, after the rows that were there: its identifier is the next value of
    the sequence and its columns are what the persistence layer made of the
    four values of the body, none of which is missing or null; created is
    that identifier, total_questions is the previous total plus one, and the
    categories are untouched.  This holds whatever values the persistence
    layer takes. *)
Theorem X13_create_question_stores {cols : Columns} :
  forall (request : Request) (db : Db) (body : dict),
    json request = VDict body ->
    truthy (Py.get body "searchTerm" VNone) = false ->
    status_of (fst (POST_questions request db)) = 200 ->
    let response := fst (POST_questions request db) in
    let db' := snd (POST_questions request db) in
    exists row,
      questions_table db' = questions_table db ++ [row]
      /\ Question.id row = questions_id_seq db
      /\ store_values (Py.get body "question" VNone) (Py.get body "answer" VNone)
                      (Py.get body "category" VNone) (Py.get body "difficulty" VNone)
         = Ok (Question.question row, Question.answer row,
               Question.category row, Question.difficulty row)
      /\ ~ (absent_or_null body "question" \/ absent_or_null body "answer"
            \/ absent_or_null body "category" \/ absent_or_null body "difficulty")
      /\ categories_table db' = categories_table db
      /\ field response "created" = Some (VInt (Question.id row))
      /\ field response "total_questions"
         = Some (VInt (Z.of_nat (List.length (questions_table db)) + 1)).
Proof.
  intros request db body Hjson Hs Hok response db'. unfold response, db' in *.
  destruct (POST_questions_create request db body Hjson Hs)
    as [(qs & ans & cat & dif & Hnone & Hst & E) | E];
    cbv zeta in E; rewrite E in *; [| discriminate Hok].
  cbn [fst snd].
  exists (Question.Build (questions_id_seq db) qs ans cat dif).
  cbn [questions_table categories_table Question.id Question.question
       Question.answer Question.category Question.difficulty].
  split; [reflexivity |]. split; [reflexivity |]. split; [exact Hst |].
  split.
  { rewrite <- !get_is_None.
    apply orb_false_iff in Hnone as [Hnone Hd].
    apply orb_false_iff in Hnone as [Hnone Hc].
    apply orb_false_iff in Hnone as [Hq Ha].
    rewrite Hq, Ha, Hc, Hd. intros [H | [H | [H | H]]]; discriminate H. }
  split; [reflexivity |]. split; [reflexivity |].
  cbn. do 2 f_equal. rewrite length_app. cbn. lia.
Qed.

Lemma X13_witness :
  status_of
    (fst (POST_questions (cols := sample_columns)
            (json_request (new_question_body "How many lives does a cat have?" "Nine" 1 1))
            sample_db)) = 200
  /\ exists row,
      questions_table
        (snd (POST_questions (cols := sample_columns)
                (json_request (new_question_body "How many lives does a cat have?" "Nine" 1 1))
                sample_db))
      = questions_table sample_db ++ [row]
      /\ Question.id row = 4.
Proof.
  split; [reflexivity |].
  destruct (X13_create_question_stores (cols := sample_columns)
              (json_request (new_question_body "How many lives does a cat have?" "Nine" 1 1))
              sample_db _ eq_refl eq_refl eq_refl) as (row & Htab & Hid & _).
  exists row. split; [exact Htab | exact Hid].
Defined.

(** X14 ([create_question], [delete_question]): when the identifiers in
    use are below the next value of the sequence, deleting the question a
    successful creation just stored, by the identifier the creation
    answered with, succeeds and leaves the questions table as it was
    before the creation. *)
Theorem X14_create_then_delete {cols : Columns} :
  forall (request request' : Request) (db : Db) (body : dict),
    json request = VDict body ->
    truthy (Py.get body "searchTerm" VNone) = false ->
    ids_below_seq db ->
    status_of (fst (POST_questions request db)) = 200 ->
    let created := questions_id_seq db in
    let db1 := snd (POST_questions request db) in
    field (fst (POST_questions request db)) "created" = Some (VInt created)
    /\ status_of (fst (DELETE_question request' created db1)) = 200
    /\ questions_table (snd (DELETE_question request' created db1))
       = questions_table db
    /\ field (fst (DELETE_question request' created db1)) "total_questions"
       = Some (VInt (Z.of_nat (List.length (questions_table db)))).
Proof.
  intros request request' db body Hjson Hs Hbelow Hok created db1.
  unfold db1, created in *.
  destruct (POST_questions_create request db body Hjson Hs)
    as [(qs & ans & cat & dif & _ & _ & E) | E];
    cbv zeta in E; rewrite E in *; [| discriminate Hok].
  cbn [fst snd].
  set (row := Question.Build (questions_id_seq db) qs ans cat dif).
  set (db2 := MkDb (questions_table db ++ [row]) (categories_table db)
                   (questions_id_seq db + 1)).
  assert (Hold : forall x, In x (questions_table db) ->
                           (Question.id x =? questions_id_seq db) = false).
  { intros x Hx. apply Z.eqb_neq. specialize (Hbelow x Hx). lia. }
  assert (Hfound : with_id (questions_id_seq db) db2 = [row]).
  { unfold with_id, Question_query_all, db2. cbn [questions_table].
    rewrite filter_app, (filter_none _ _ Hold). cbn. now rewrite Z.eqb_refl. }
  assert (Hrest : questions_table (Question_delete row db2) = questions_table db).
  { unfold Question_delete, db2. cbn [questions_table Question.id row].
    rewrite filter_app. cbn. rewrite Z.eqb_refl. cbn. rewrite app_nil_r.
    apply filter_all. intros x Hx. now rewrite (Hold x Hx). }
  rewrite (delete_question_found request' _ db2 row Hfound). cbn [fst snd].
  split; [reflexivity |]. split; [reflexivity |]. split; [exact Hrest |].
  change (Some (VInt (Z.of_nat (List.length
                                  (questions_table (Question_delete row db2)))))
          = Some (VInt (Z.of_nat (List.length (questions_table db))))).
  now rewrite Hrest.
Qed.

Lemma X14_witness :
  questions_table
    (snd (DELETE_question empty_request 4
            (snd (POST_questions (cols := sample_columns)
                    (json_request (new_question_body "Who discovered penicillin?"
                                                     "Alexander Fleming" 1 3))
                    sample_db))))
  = questions_table sample_db.
Proof.
  apply (X14_create_then_delete (cols := sample_columns)
           (json_request (new_question_body "Who discovered penicillin?"
                                            "Alexander Fleming" 1 3))
           empty_request sample_db _ eq_refl eq_refl).
  - intros q [<- | [<- | [<- | []]]]; reflexivity.
  - reflexivity.
Defined.

(* ================================================================= *)
(** ** Identifiers *)

(** X15 ([create_question], [delete_question]): the two endpoints that
    write keep the identifiers of the stored questions distinct and below
    the next value of the sequence; so the identifier a creation answers
    with is larger than every identifier stored before it. *)
Theorem X15_identifiers_invariant {cols : Columns} :
  forall (request : Request) (id : Z) (db : Db),
    ids_unique db ->
    ids_below_seq db ->
    (ids_unique (snd (POST_questions request db))
     /\ ids_below_seq (snd (POST_questions request db)))
    /\ (ids_unique (snd (DELETE_question request id db))
        /\ ids_below_seq (snd (DELETE_question request id db)))
    /\ (forall k,
           field (fst (POST_questions request db)) "created" = Some (VInt k) ->
           forall q, In q (questions_table db) -> Question.id q < k).
Proof.
  intros request id db Hu Hb.
  assert (Hpost :
            POST_questions request db = (fst (POST_questions request db), db)
            \/ exists qs ans cat dif page,
                POST_questions request db =
                (created_envelope (questions_id_seq db) page
                   (List.length
                      (questions_table db
                       ++ [Question.Build (questions_id_seq db) qs ans cat dif])),
                 MkDb (questions_table db
                       ++ [Question.Build (questions_id_seq db) qs ans cat dif])
                      (categories_table db) (questions_id_seq db + 1))).
  { destruct (is_dict (json request)) eqn:D.
    2:{ left. now rewrite (POST_questions_not_dict request db D). }
    destruct (json request) as [| | | | | body] eqn:Hjson; try discriminate D.
    destruct (truthy (Py.get body "searchTerm" VNone)) eqn:Hs.
    - destruct (POST_questions_search request db body Hjson Hs) as (p & _ & E).
      left. now rewrite E.
    - destruct (POST_questions_create request db body Hjson Hs)
        as [(qs & ans & cat & dif & _ & _ & E) | E]; cbv zeta in E.
      + right. exists qs, ans, cat, dif. eexists. exact E.
      + left. now rewrite E. }
  split; [| split].
  - destruct Hpost as [E | (qs & ans & cat & dif & page & E)]; rewrite E; cbn [snd].
    + now split.
    + split.
      * unfold ids_unique. cbn [questions_table]. rewrite map_app. cbn [map Question.id].
        apply NoDup_app; [exact Hu | repeat constructor; intros [] |].
        intros a Ha [<- | []]. apply in_map_iff in Ha as (q & Eq & Hq).
        specialize (Hb q Hq). lia.
      * intros q Hq. cbn [questions_table questions_id_seq] in *.
        apply in_app_or in Hq as [Hq | [<- | []]].
        -- specialize (Hb q Hq). lia.
        -- cbn. lia.
  - destruct (DELETE_question_cases request id db) as [[_ E] | (q & _ & E)];
      rewrite E; cbn [snd]; [now split |].
    split.
    + unfold ids_unique, Question_delete. cbn [questions_table].
      now apply map_filter_NoDup.
    + intros x Hx. unfold Question_delete in Hx.
      cbn [questions_table questions_id_seq] in *.
      apply filter_In in Hx as [Hx _]. now apply Hb.
  - intros k Hk q Hq.
    destruct Hpost as [E | (qs & ans & cat & dif & page & E)].
    + exfalso. revert Hk.
      destruct (is_dict (json request)) eqn:D.
      2:{ rewrite (POST_questions_not_dict request db D). discriminate. }
      destruct (json request) as [| | | | | body] eqn:Hjson; try discriminate D.
      destruct (truthy (Py.get body "searchTerm" VNone)) eqn:Hs.
      * destruct (POST_questions_search request db body Hjson Hs) as (p & _ & E').
        rewrite E'. discriminate.
      * destruct (POST_questions_create request db body Hjson Hs)
          as [(qs & ans & cat & dif & _ & _ & E') | E']; cbv zeta in E'.
        -- rewrite E' in E. apply (f_equal snd) in E. cbn [fst snd] in E.
           apply (f_equal questions_table) in E. cbn [questions_table] in E.
           apply (f_equal (@List.length _)) in E. rewrite length_app in E.
           cbn in E. lia.
        -- rewrite E'. discriminate.
    + rewrite E in Hk. injection Hk as <-. now apply Hb.
Qed.

Lemma X15_witness :
  ids_unique sample_db
  /\ ids_below_seq sample_db
  /\ ids_unique
       (snd (POST_questions (cols := sample_columns)
               (json_request (new_question_body "Who painted the Mona Lisa?"
                                                "Leonardo da Vinci" 2 3))
               sample_db)).
Proof.
  assert (Hu : ids_unique sample_db).
  { unfold ids_unique. cbn. repeat constructor; cbn; intuition discriminate. }
  assert (Hb : ids_below_seq sample_db).
  { intros q [<- | [<- | [<- | []]]]; reflexivity. }
  split; [exact Hu |]. split; [exact Hb |].
  apply (X15_identifiers_invariant (cols := sample_columns)
           (json_request (new_question_body "Who painted the Mona Lisa?"
                                            "Leonardo da Vinci" 2 3))
           0 sample_db Hu Hb).
Defined.

(* ================================================================= *)
(** ** More on the quiz *)

Lemma quiz_next_inj (q q' : Question.t) : quiz_next q = quiz_next q' -> q = q'.
Proof.
  destruct q, q'. unfold quiz_next, Question.format. cbn.
  intros H. injection H as -> -> -> -> ->. reflexivity.
Qed.

Lemma contains_int_cons (v : value) (s : list value) (n : Z) :
  contains_int (v :: s) n = eq_int v n || contains_int s n.
Proof. reflexivity. Qed.

Lemma poss_qs_cons (questions : list Question.t) (v : value) (previous : list value) :
  poss_qs questions (v :: previous) =
  filter (fun x => negb (eq_int v (Question.id x))) (poss_qs questions previous).
Proof.
  unfold poss_qs. induction questions as [| x l IH]; [reflexivity |].
  cbn [filter]. rewrite contains_int_cons, IH.
  destruct (eq_int v (Question.id x)) eqn:Ev;
    destruct (contains_int previous (Question.id x)) eqn:Ep;
    cbn [orb negb filter]; rewrite ?Ev; reflexivity.
Qed.

Lemma filter_drops {A : Type} (f : A -> bool) (l : list A) (x : A) :
  In x l -> f x = false -> (List.length (filter f l) < List.length l)%nat.
Proof.
  induction l as [| y l IH]; intros Hin Hx; [destruct Hin |].
  cbn. destruct Hin as [-> | Hin].
  - rewrite Hx. pose proof (filter_length_le f l). lia.
  - specialize (IH Hin Hx). destruct (f y); cbn; lia.
Qed.

(** The candidates left for a well-formed quiz request, and the answer. *)
Lemma POST_quizzes_present rnd request db body c previous :
  json request = VDict body ->
  ~ absent_or_null body "quiz_category" ->
  ~ absent_or_null body "previous_questions" ->
  quiz_category_id (Py.get body "quiz_category" VNone) = Ok c ->
  Py.set (Py.get body "previous_questions" VNone) = Ok previous ->
  POST_quizzes rnd request db =
  match poss_qs (quiz_questions c db) previous with
  | q0 :: rest =>
      quiz_next (nth (Nat.modulo rnd (List.length (q0 :: rest))) (q0 :: rest) q0)
  | [] => quiz_over
  end.
Proof.
  intros Hjson Hc Hp Hid Hset. unfold POST_quizzes.
  rewrite (retrieve_quiz_question_present rnd request db body Hjson Hc Hp).
  rewrite Hid, Hset. cbn [Py.bind].
  now destruct (poss_qs (quiz_questions c db) previous).
Qed.

(** X16 ([retrieve_quiz_question]): when the client adds the identifier
    of the question it was given to previous_questions, the candidates of
    the next round are those of this round without the questions of that
    identifier, the one just given among them: strictly fewer.  A quiz
    played this way is over after at most as many rounds as it has
    candidates. *)
Theorem X16_quiz_pool_shrinks :
  forall (rnd : nat) (request : Request) (db : Db) (body : dict)
         (c : Z) (previous : list value) (q : Question.t),
    json request = VDict body ->
    ~ absent_or_null body "quiz_category" ->
    ~ absent_or_null body "previous_questions" ->
    quiz_category_id (Py.get body "quiz_category" VNone) = Ok c ->
    Py.set (Py.get body "previous_questions" VNone) = Ok previous ->
    POST_quizzes rnd request db = quiz_next q ->
    let pool := poss_qs (quiz_questions c db) previous in
    let pool' := poss_qs (quiz_questions c db) (VInt (Question.id q) :: previous) in
    In q pool
    /\ (forall x, In x pool' <-> In x pool /\ Question.id x <> Question.id q)
    /\ (List.length pool' < List.length pool)%nat.
Proof.
  intros rnd request db body c previous q Hjson Hc Hp Hid Hset Hresp pool pool'.
  assert (Hq : In q pool).
  { rewrite (POST_quizzes_present rnd request db body c previous
               Hjson Hc Hp Hid Hset) in Hresp.
    fold pool in Hresp. destruct pool as [| q0 rest]; [discriminate Hresp |].
    apply quiz_next_inj in Hresp. rewrite <- Hresp. apply drawn_In. }
  assert (E : pool' = filter (fun x => negb (Question.id q =? Question.id x)) pool).
  { unfold pool', pool. now rewrite poss_qs_cons. }
  split; [exact Hq |].
  split.
  - intros x. rewrite E, filter_In, negb_true_iff, Z.eqb_neq.
    split; intros [H1 H2]; split; congruence.
  - rewrite E. apply (filter_drops _ pool q Hq). now rewrite Z.eqb_refl.
Qed.

Lemma X16_witness :
  POST_quizzes 0 (quiz_request (VInt 0) [VInt 1]) sample_db
  = quiz_next (Question.Build 3 "What is the heaviest organ?" "The liver" 1 4)
  /\ (List.length (poss_qs (quiz_questions 0 sample_db) [VInt 3; VInt 1])
      < List.length (poss_qs (quiz_questions 0 sample_db) [VInt 1]))%nat.
Proof.
  split; [reflexivity |].
  apply (X16_quiz_pool_shrinks 0 (quiz_request (VInt 0) [VInt 1]) sample_db _
           0 [VInt 1] (Question.Build 3 "What is the heaviest organ?" "The liver" 1 4)
           eq_refl).
  - intros [H | H]; discriminate H.
  - intros [H | H]; discriminate H.
  - reflexivity.
  - reflexivity.
  - reflexivity.
Defined.

(** X17 ([retrieve_quiz_question]): POST /quizzes has four answers and no
    other: the 400 envelope, a 500, success alone, or success with a stored
    question; it never answers with the 404 or the 422 envelope.  The 500 is
    the answer exactly when the body is not a JSON object, or both fields
    are there and either the category has no id that [int] accepts or
    previous_questions is not a collection of hashable values. *)
Theorem X17_quiz_answers :
  forall (rnd : nat) (request : Request) (db : Db),
    let response := POST_quizzes rnd request db in
    (response = bad_request \/ response = ErrorPage 500 \/ response = quiz_over
     \/ exists q, In q (questions_table db) /\ response = quiz_next q)
    /\ (response = ErrorPage 500 <->
        is_dict (json request) = false
        \/ exists body,
            json request = VDict body
            /\ ~ absent_or_null body "quiz_category"
            /\ ~ absent_or_null body "previous_questions"
            /\ ((exists e, quiz_category_id (Py.get body "quiz_category" VNone)
                           = Raise e)
                \/ (exists e, Py.set (Py.get body "previous_questions" VNone)
                              = Raise e))).
Proof.
  intros rnd request db response. unfold response.
  destruct (is_dict (json request)) eqn:D.
  2:{ assert (E : POST_quizzes rnd request db = ErrorPage 500).
      { unfold POST_quizzes, retrieve_quiz_question.
        destruct (json request); try reflexivity. discriminate D. }
      rewrite E. split; [now right; left |]. split; [now left | reflexivity]. }
  destruct (json request) as [| | | | | body] eqn:Hjson; try discriminate D.
  destruct (is_None (Py.get body "quiz_category" VNone)
            || is_None (Py.get body "previous_questions" VNone)) eqn:Hnone.
  { assert (E : POST_quizzes rnd request db = bad_request).
    { unfold POST_quizzes, retrieve_quiz_question. now rewrite Hjson, Hnone. }
    rewrite E. split; [now left |].
    split; [discriminate |].
    intros [H | (b & [= <-] & Hc & Hp & _)]; [discriminate H |].
    exfalso. apply orb_true_iff in Hnone as [H | H]; apply get_is_None in H; tauto. }
  apply orb_false_iff in Hnone as [Hc Hp].
  assert (Hc' : ~ absent_or_null body "quiz_category")
    by (rewrite <- get_is_None, Hc; discriminate).
  assert (Hp' : ~ absent_or_null body "previous_questions")
    by (rewrite <- get_is_None, Hp; discriminate).
  destruct (quiz_category_id (Py.get body "quiz_category" VNone)) as [c | e] eqn:Ec.
  2:{ assert (E : POST_quizzes rnd request db = ErrorPage 500).
      { unfold POST_quizzes.
        rewrite (retrieve_quiz_question_present rnd request db body Hjson Hc' Hp').
        rewrite Ec. cbn [Py.bind]. apply dispatch_not_http.
        now apply quiz_category_id_not_http in Ec. }
      rewrite E. split; [now right; left |].
      split; [intros _ | reflexivity].
      right. exists body. repeat split; try assumption. left. now exists e. }
  destruct (Py.set (Py.get body "previous_questions" VNone)) as [s | e] eqn:Es.
  2:{ assert (E : POST_quizzes rnd request db = ErrorPage 500).
      { unfold POST_quizzes.
        rewrite (retrieve_quiz_question_present rnd request db body Hjson Hc' Hp').
        rewrite Ec, Es. cbn [Py.bind]. apply dispatch_not_http.
        now apply set_not_http in Es. }
      rewrite E. split; [now right; left |].
      split; [intros _ | reflexivity].
      right. exists body. repeat split; try assumption. right. now exists e. }
  rewrite (POST_quizzes_present rnd request db body c s Hjson Hc' Hp' Ec Es).
  assert (Hno500 : forall r : Response,
             (r = quiz_over \/ exists q, r = quiz_next q) ->
             (r = ErrorPage 500 <->
              is_dict (VDict body) = false
              \/ exists body0,
                  VDict body = VDict body0
                  /\ ~ absent_or_null body0 "quiz_category"
                  /\ ~ absent_or_null body0 "previous_questions"
                  /\ ((exists e, quiz_category_id (Py.get body0 "quiz_category" VNone)
                                 = Raise e)
                      \/ (exists e, Py.set (Py.get body0 "previous_questions" VNone)
                                    = Raise e)))).
  { intros r Hr. split.
    - intros ->. destruct Hr as [H | [q H]]; discriminate H.
    - intros [H | (b & [= <-] & _ & _ & [[e H] | [e H]])];
        [discriminate H | congruence | congruence]. }
  destruct (poss_qs (quiz_questions c db) s) as [| q0 rest] eqn:Eposs.
  - split; [now right; right; left |]. apply Hno500. now left.
  - set (q := nth _ _ _).
    assert (Hq : In q (poss_qs (quiz_questions c db) s)).
    { rewrite Eposs. apply drawn_In. }
    split.
    + right. right. right. exists q. split; [| reflexivity].
      unfold poss_qs in Hq. apply filter_In in Hq as [Hq _].
      unfold quiz_questions, Question_query_all in Hq.
      destruct (c =? 0); [exact Hq |]. now apply filter_In in Hq.
    + apply Hno500. right. now exists q.
Qed.
